(** * Rational Bernstein shape functions of libMesh

    A shallow embedding of [src/fe/fe_rational_shape_1D.C] and
    [src/fe/fe_rational_shape_3D.C]: the specialisations
    [FE<1,RATIONAL_BERNSTEIN>] and [FE<3,RATIONAL_BERNSTEIN>] of [shape],
    [shape_deriv] and [shape_second_deriv].

    Modelling conventions.
    - libMesh's [Real] is a build-time choice of floating type; it is
      idealised here as the field of real numbers, so every statement
      below is about exact arithmetic and says nothing on rounding.
    - [unsigned int] indices ([i], [j], [sf], [n_sf], [n_nodes]) are only
      compared and incremented below their bound, so they are [nat].
    - [libmesh_assert] and [libmesh_assert_equal_to] are modelled as
      checked (the debug and devel builds): a failed assertion ends the
      call with [AssertionFailure].  [libmesh_error] and
      [libmesh_error_msg] end the call in every build.
    - [FEInterface] (the evaluation of the underlying Bernstein basis) is
      not part of these two files; it is a record of functions that every
      definition takes as a parameter. *)

From Stdlib Require Import Reals Lra List Arith Lia Bool.
Import ListNotations.

Open Scope R_scope.

(** ** Data model *)

Abbreviation Real := R.

(** How a call can end without a value.  The names are those of the
    specification's error taxonomy; the source raises them as follows.
    - [MissingGeometry]: [libmesh_error_msg("Rational bases require the
      real element to query nodal weighting.")] in the [ElemType] overloads;
    - [InvalidDirectionIndex]: [libmesh_error()] in the [default] branch of
      the [switch (j)] of the 3D second derivative;
    - [AssertionFailure]: a failed [libmesh_assert]. *)
Inductive error : Type :=
| MissingGeometry
| InvalidDirectionIndex
| AssertionFailure.

Inductive result (A : Type) : Type :=
| Ok (a : A)
| Error (e : error).

Arguments Ok {A} a.
Arguments Error {A} e.

Definition bind {A B : Type} (m : result A) (k : A -> result B) : result B :=
  match m with
  | Ok a => k a
  | Error e => Error e
  end.

Notation "x <- m ;; k" := (bind m (fun x => k))
  (at level 61, m at next level, right associativity).
Notation "' pat <- m ;; k" := (bind m (fun x => match x with pat => k end))
  (at level 61, pat pattern, m at next level, right associativity).

(** [libmesh_assert(elem)] on a pointer: the null pointer is [None]. *)
Definition libmesh_assert {A : Type} (ptr : option A) : result A :=
  match ptr with
  | Some a => Ok a
  | None => Error AssertionFailure
  end.

Definition libmesh_assert_equal_to (a b : nat) : result unit :=
  if (a =? b)%nat then Ok tt else Error AssertionFailure.

(** The enumerations the two files name. *)
Inductive FEFamily : Type := BERNSTEIN | RATIONAL_BERNSTEIN.

Inductive ElemType : Type := EDGE2 | EDGE3 | EDGE4 | HEX8 | HEX20 | HEX27.

(** [Order] is an integer-valued enumeration: the polynomial degree. *)
Definition Order := nat.
Definition FIRST : Order := 1%nat.
Definition SECOND : Order := 2%nat.

Record FEType : Type := { order : Order; family : FEFamily }.

(** A point of the reference domain. *)
Record Point : Type := { xi : Real; eta : Real; zeta : Real }.

(** [shift p j h] moves [p] by [h] along axis [j]. *)
Definition shift (p : Point) (j : nat) (h : Real) : Point :=
  match j with
  | O => {| xi := xi p + h; eta := eta p; zeta := zeta p |}
  | S O => {| xi := xi p; eta := eta p + h; zeta := zeta p |}
  | _ => {| xi := xi p; eta := eta p; zeta := zeta p + h |}
  end.

(** A node carries extra data read by index ([get_extra_datum<Real>]). *)
Record Node : Type := { get_extra_datum : nat -> Real }.

Record Elem : Type := {
  type : ElemType;
  p_level : nat;
  mapping_data : nat;
  nodes : list Node
}.

Definition n_nodes (elem : Elem) : nat := length (nodes elem).

Definition node_ref (elem : Elem) (n : nat) : Node :=
  nth n (nodes elem) {| get_extra_datum := fun _ => 0 |}.

(** The underlying, non-rational basis: [FEInterface::n_shape_functions],
    [FEInterface::shape], [FEInterface::shape_deriv] and
    [FEInterface::shape_second_deriv], each called with
    [(fe_type, extra_order, elem, ...)]. *)
Module FEInterface.
Record t : Type := {
  n_shape_functions : FEType -> nat -> Elem -> nat;
  shape : FEType -> nat -> Elem -> nat -> Point -> Real;
  shape_deriv : FEType -> nat -> Elem -> nat -> nat -> Point -> Real;
  shape_second_deriv : FEType -> nat -> Elem -> nat -> nat -> Point -> Real
}.
End FEInterface.

Definition _underlying_fe_family : FEFamily := BERNSTEIN.

(** [int extra_order = add_p_level * elem->p_level();] *)
Definition extra_order_of (add_p_level : bool) (elem : Elem) : nat :=
  (Nat.b2n add_p_level * p_level elem)%nat.

(** The loop that fills [std::vector<Real> node_weights(n_nodes)]. *)
Definition fill_node_weights (elem : Elem) : list Real :=
  let datum_index := mapping_data elem in
  map (fun n => get_extra_datum (node_ref elem n) datum_index)
      (seq 0 (n_nodes elem)).

(** ** [FE<1,RATIONAL_BERNSTEIN>] *)

Module FE1.
Section WithInterface.
Variable fe : FEInterface.t.

Definition shape (elem : option Elem) (order : Order) (i : nat)
           (p : Point) (add_p_level : bool) : result Real :=
  elem <- libmesh_assert elem ;;
  let extra_order := extra_order_of add_p_level elem in
  let fe_type := {| order := order; family := _underlying_fe_family |} in
  let n_sf := FEInterface.n_shape_functions fe fe_type extra_order elem in
  let n_nodes := n_nodes elem in
  _ <- libmesh_assert_equal_to n_sf n_nodes ;;
  let node_weights := fill_node_weights elem in
  let '(weighted_shape_i, weighted_sum) :=
    fold_left
      (fun '(weighted_shape_i, weighted_sum) sf =>
         let weighted_shape :=
           nth sf node_weights 0 *
           FEInterface.shape fe fe_type extra_order elem sf p in
         let weighted_sum := weighted_sum + weighted_shape in
         let weighted_shape_i :=
           if (sf =? i)%nat then weighted_shape else weighted_shape_i in
         (weighted_shape_i, weighted_sum))
      (seq 0 n_sf) (0, 0) in
  Ok (weighted_shape_i / weighted_sum).

Definition shape_ElemType (_ : ElemType) (_ : Order) (_ : nat)
           (_ : Point) : result Real :=
  Error MissingGeometry.

Definition shape_FEType (fet : FEType) (elem : option Elem) (i : nat)
           (p : Point) (add_p_level : bool) : result Real :=
  _ <- libmesh_assert elem ;;
  shape elem (order fet) i p add_p_level.

Definition shape_deriv (elem : option Elem) (order : Order) (i j : nat)
           (p : Point) (add_p_level : bool) : result Real :=
  (* only d()/dxi in 1D! *)
  _ <- libmesh_assert_equal_to j 0 ;;
  elem <- libmesh_assert elem ;;
  let extra_order := extra_order_of add_p_level elem in
  let fe_type := {| order := order; family := _underlying_fe_family |} in
  let n_sf := FEInterface.n_shape_functions fe fe_type extra_order elem in
  let n_nodes := n_nodes elem in
  _ <- libmesh_assert_equal_to n_sf n_nodes ;;
  let node_weights := fill_node_weights elem in
  let '(weighted_shape_i, weighted_sum,
        weighted_grad_i, weighted_grad_sum) :=
    fold_left
      (fun '(weighted_shape_i, weighted_sum,
             weighted_grad_i, weighted_grad_sum) sf =>
         let weighted_shape :=
           nth sf node_weights 0 *
           FEInterface.shape fe fe_type extra_order elem sf p in
         let weighted_grad :=
           nth sf node_weights 0 *
           FEInterface.shape_deriv fe fe_type extra_order elem sf 0 p in
         let weighted_sum := weighted_sum + weighted_shape in
         let weighted_grad_sum := weighted_grad_sum + weighted_grad in
         if (sf =? i)%nat
         then (weighted_shape, weighted_sum,
               weighted_grad, weighted_grad_sum)
         else (weighted_shape_i, weighted_sum,
               weighted_grad_i, weighted_grad_sum))
      (seq 0 n_sf) (0, 0, 0, 0) in
  Ok ((weighted_sum * weighted_grad_i - weighted_shape_i * weighted_grad_sum) /
      weighted_sum / weighted_sum).

Definition shape_deriv_ElemType (_ : ElemType) (_ : Order) (_ _ : nat)
           (_ : Point) : result Real :=
  Error MissingGeometry.

Definition shape_deriv_FEType (fet : FEType) (elem : option Elem)
           (i j : nat) (p : Point) (add_p_level : bool) : result Real :=
  _ <- libmesh_assert elem ;;
  shape_deriv elem (order fet) i j p add_p_level.

Definition shape_second_deriv (elem : option Elem) (order : Order)
           (i j : nat) (p : Point) (add_p_level : bool) : result Real :=
  (* Don't need to switch on j.  1D shape functions depend on xi only! *)
  _ <- libmesh_assert_equal_to j 0 ;;
  elem <- libmesh_assert elem ;;
  let extra_order := extra_order_of add_p_level elem in
  let fe_type := {| order := order; family := _underlying_fe_family |} in
  let n_sf := FEInterface.n_shape_functions fe fe_type extra_order elem in
  let n_nodes := n_nodes elem in
  _ <- libmesh_assert_equal_to n_sf n_nodes ;;
  let node_weights := fill_node_weights elem in
  let '(weighted_shape_i, weighted_sum,
        weighted_grad_i, weighted_grad_sum,
        weighted_hess_i, weighted_hess_sum) :=
    fold_left
      (fun '(weighted_shape_i, weighted_sum,
             weighted_grad_i, weighted_grad_sum,
             weighted_hess_i, weighted_hess_sum) sf =>
         let weighted_shape :=
           nth sf node_weights 0 *
           FEInterface.shape fe fe_type extra_order elem sf p in
         let weighted_grad :=
           nth sf node_weights 0 *
           FEInterface.shape_deriv fe fe_type extra_order elem sf 0 p in
         let weighted_hess :=
           nth sf node_weights 0 *
           FEInterface.shape_second_deriv fe fe_type extra_order elem sf 0 p in
         let weighted_sum := weighted_sum + weighted_shape in
         let weighted_grad_sum := weighted_grad_sum + weighted_grad in
         let weighted_hess_sum := weighted_hess_sum + weighted_hess in
         if (sf =? i)%nat
         then (weighted_shape, weighted_sum,
               weighted_grad, weighted_grad_sum,
               weighted_hess, weighted_hess_sum)
         else (weighted_shape_i, weighted_sum,
               weighted_grad_i, weighted_grad_sum,
               weighted_hess_i, weighted_hess_sum))
      (seq 0 n_sf) (0, 0, 0, 0, 0, 0) in
  Ok ((weighted_sum * weighted_sum *
       (weighted_sum * weighted_hess_i - weighted_shape_i * weighted_hess_sum) -
       (weighted_sum * weighted_grad_i - weighted_shape_i * weighted_grad_sum) *
       2 * weighted_sum * weighted_grad_sum) /
      (weighted_sum * weighted_sum * weighted_sum * weighted_sum)).

Definition shape_second_deriv_ElemType (_ : ElemType) (_ : Order)
           (_ _ : nat) (_ : Point) : result Real :=
  Error MissingGeometry.

Definition shape_second_deriv_FEType (fet : FEType) (elem : option Elem)
           (i j : nat) (p : Point) (add_p_level : bool) : result Real :=
  _ <- libmesh_assert elem ;;
  shape_second_deriv elem (order fet) i j p add_p_level.

End WithInterface.
End FE1.

(** ** [FE<3,RATIONAL_BERNSTEIN>] *)

Module FE3.
Section WithInterface.
Variable fe : FEInterface.t.

Definition shape (elem : option Elem) (order : Order) (i : nat)
           (p : Point) (add_p_level : bool) : result Real :=
  elem <- libmesh_assert elem ;;
  let extra_order := extra_order_of add_p_level elem in
  let fe_type := {| order := order; family := _underlying_fe_family |} in
  let n_sf := FEInterface.n_shape_functions fe fe_type extra_order elem in
  let n_nodes := n_nodes elem in
  _ <- libmesh_assert_equal_to n_sf n_nodes ;;
  let node_weights := fill_node_weights elem in
  let '(weighted_shape_i, weighted_sum) :=
    fold_left
      (fun '(weighted_shape_i, weighted_sum) sf =>
         let weighted_shape :=
           nth sf node_weights 0 *
           FEInterface.shape fe fe_type extra_order elem sf p in
         let weighted_sum := weighted_sum + weighted_shape in
         let weighted_shape_i :=
           if (sf =? i)%nat then weighted_shape else weighted_shape_i in
         (weighted_shape_i, weighted_sum))
      (seq 0 n_sf) (0, 0) in
  Ok (weighted_shape_i / weighted_sum).

Definition shape_ElemType (_ : ElemType) (_ : Order) (_ : nat)
           (_ : Point) : result Real :=
  Error MissingGeometry.

Definition shape_FEType (fet : FEType) (elem : option Elem) (i : nat)
           (p : Point) (add_p_level : bool) : result Real :=
  shape elem (order fet) i p add_p_level.

Definition shape_deriv (elem : option Elem) (order : Order) (i j : nat)
           (p : Point) (add_p_level : bool) : result Real :=
  elem <- libmesh_assert elem ;;
  let extra_order := extra_order_of add_p_level elem in
  let fe_type := {| order := order; family := _underlying_fe_family |} in
  let n_sf := FEInterface.n_shape_functions fe fe_type extra_order elem in
  let n_nodes := n_nodes elem in
  _ <- libmesh_assert_equal_to n_sf n_nodes ;;
  let node_weights := fill_node_weights elem in
  let '(weighted_shape_i, weighted_sum,
        weighted_grad_i, weighted_grad_sum) :=
    fold_left
      (fun '(weighted_shape_i, weighted_sum,
             weighted_grad_i, weighted_grad_sum) sf =>
         let weighted_shape :=
           nth sf node_weights 0 *
           FEInterface.shape fe fe_type extra_order elem sf p in
         let weighted_grad :=
           nth sf node_weights 0 *
           FEInterface.shape_deriv fe fe_type extra_order elem sf j p in
         let weighted_sum := weighted_sum + weighted_shape in
         let weighted_grad_sum := weighted_grad_sum + weighted_grad in
         if (sf =? i)%nat
         then (weighted_shape, weighted_sum,
               weighted_grad, weighted_grad_sum)
         else (weighted_shape_i, weighted_sum,
               weighted_grad_i, weighted_grad_sum))
      (seq 0 n_sf) (0, 0, 0, 0) in
  Ok ((weighted_sum * weighted_grad_i - weighted_shape_i * weighted_grad_sum) /
      weighted_sum / weighted_sum).

Definition shape_deriv_ElemType (_ : ElemType) (_ : Order) (_ _ : nat)
           (_ : Point) : result Real :=
  Error MissingGeometry.

Definition shape_deriv_FEType (fet : FEType) (elem : option Elem)
           (i j : nat) (p : Point) (add_p_level : bool) : result Real :=
  shape_deriv elem (order fet) i j p add_p_level.

(** The [switch (j)] that opens [shape_second_deriv]. *)
Definition decode_direction (j : nat) : result (nat * nat) :=
  match j with
  | 0%nat => Ok (0%nat, 0%nat)  (* d^2 phi / dxi^2 *)
  | 1%nat => Ok (0%nat, 1%nat)  (* d^2 phi / dxi deta *)
  | 2%nat => Ok (1%nat, 1%nat)  (* d^2 phi / deta^2 *)
  | 3%nat => Ok (0%nat, 2%nat)  (* d^2 phi / dxi dzeta *)
  | 4%nat => Ok (1%nat, 2%nat)  (* d^2 phi / deta dzeta *)
  | 5%nat => Ok (2%nat, 2%nat)  (* d^2 phi / dzeta^2 *)
  | _ => Error InvalidDirectionIndex
  end.

(** Everything of [shape_second_deriv] below the [switch]: it reads the
    direction index [j] and the two axes [j1], [j2] the switch has set. *)
Definition shape_second_deriv_body (j1 j2 : nat)
           (elem : option Elem) (order : Order) (i j : nat)
           (p : Point) (add_p_level : bool) : result Real :=
  elem <- libmesh_assert elem ;;
  let extra_order := extra_order_of add_p_level elem in
  let fe_type := {| order := order; family := _underlying_fe_family |} in
  let n_sf := FEInterface.n_shape_functions fe fe_type extra_order elem in
  let n_nodes := n_nodes elem in
  _ <- libmesh_assert_equal_to n_sf n_nodes ;;
  let node_weights := fill_node_weights elem in
  let '(weighted_shape_i, weighted_sum,
        weighted_grada_i, weighted_grada_sum,
        weighted_gradb_i, weighted_gradb_sum,
        weighted_hess_i, weighted_hess_sum) :=
    fold_left
      (fun '(weighted_shape_i, weighted_sum,
             weighted_grada_i, weighted_grada_sum,
             weighted_gradb_i, weighted_gradb_sum,
             weighted_hess_i, weighted_hess_sum) sf =>
         let weighted_shape :=
           nth sf node_weights 0 *
           FEInterface.shape fe fe_type extra_order elem sf p in
         let weighted_grada :=
           nth sf node_weights 0 *
           FEInterface.shape_deriv fe fe_type extra_order elem sf j1 p in
         let weighted_hess :=
           nth sf node_weights 0 *
           FEInterface.shape_second_deriv fe fe_type extra_order elem sf j p in
         let weighted_sum := weighted_sum + weighted_shape in
         let weighted_grada_sum := weighted_grada_sum + weighted_grada in
         let weighted_gradb := weighted_grada in
         let '(weighted_gradb, weighted_grada_sum) :=
           if negb (j1 =? j2)%nat
           then ((if (j1 =? j2)%nat then weighted_grada
                  else nth sf node_weights 0 *
                       FEInterface.shape_deriv fe fe_type extra_order elem sf j2 p),
                 weighted_grada_sum + weighted_grada)
           else (weighted_gradb, weighted_grada_sum) in
         let weighted_hess_sum := weighted_hess_sum + weighted_hess in
         if (sf =? i)%nat
         then (weighted_shape, weighted_sum,
               weighted_grada, weighted_grada_sum,
               weighted_gradb, weighted_gradb_sum,
               weighted_hess, weighted_hess_sum)
         else (weighted_shape_i, weighted_sum,
               weighted_grada_i, weighted_grada_sum,
               weighted_gradb_i, weighted_gradb_sum,
               weighted_hess_i, weighted_hess_sum))
      (seq 0 n_sf) (0, 0, 0, 0, 0, 0, 0, 0) in
  let weighted_gradb_sum :=
    if (j1 =? j2)%nat then weighted_grada_sum else weighted_gradb_sum in
  Ok ((weighted_sum * weighted_hess_i - weighted_grada_i * weighted_gradb_sum -
       weighted_shape_i * weighted_hess_sum - weighted_gradb_i * weighted_grada_sum +
       2 * weighted_grada_sum * weighted_shape_i * weighted_gradb_sum / weighted_sum) /
      weighted_sum / weighted_sum).

Definition shape_second_deriv (elem : option Elem) (order : Order)
           (i j : nat) (p : Point) (add_p_level : bool) : result Real :=
  '(j1, j2) <- decode_direction j ;;
  shape_second_deriv_body j1 j2 elem order i j p add_p_level.

Definition shape_second_deriv_ElemType (_ : ElemType) (_ : Order)
           (_ _ : nat) (_ : Point) : result Real :=
  Error MissingGeometry.

Definition shape_second_deriv_FEType (fet : FEType) (elem : option Elem)
           (i j : nat) (p : Point) (add_p_level : bool) : result Real :=
  shape_second_deriv elem (order fet) i j p add_p_level.

End WithInterface.
End FE3.


(** ** The formulas of the specification

    These definitions follow the words of the specification (sections 4.2
    to 4.4); the theorems below compare them with the code above. *)

(** Node [sf]'s weight, [w[sf]]. *)
Definition weight (elem : Elem) (sf : nat) : Real :=
  get_extra_datum (node_ref elem sf) (mapping_data elem).

(** [Rsum f n] is the sum of [f sf] over [0 <= sf < n]. *)
Fixpoint Rsum (f : nat -> Real) (n : nat) : Real :=
  match n with
  | O => 0
  | S k => Rsum f k + f k
  end.

(** The [sf == i] pick of a per-node quantity: nothing is picked when [i]
    is not a shape index. *)
Definition pick (i : nat) (f : nat -> Real) (n : nat) : Real :=
  if (i <? n)%nat then f i else 0.

Module Spec.
Section Formulas.
Variable fe : FEInterface.t.
Variable elem : Elem.
Variable ord : Order.
Variable add_p_level : bool.

Let fe_type := {| order := ord; family := _underlying_fe_family |}.
Let extra_order := extra_order_of add_p_level elem.

Definition n_sf : nat :=
  FEInterface.n_shape_functions fe fe_type extra_order elem.

(** [N[sf]], its first derivative along [j] and its second derivative
    for the direction index [j], all at [p]. *)
Definition N (p : Point) (sf : nat) : Real :=
  FEInterface.shape fe fe_type extra_order elem sf p.
Definition dN (j : nat) (p : Point) (sf : nat) : Real :=
  FEInterface.shape_deriv fe fe_type extra_order elem sf j p.
Definition d2N (j : nat) (p : Point) (sf : nat) : Real :=
  FEInterface.shape_second_deriv fe fe_type extra_order elem sf j p.

Definition numer (p : Point) (i : nat) : Real := weight elem i * N p i.
Definition denom (p : Point) : Real :=
  Rsum (fun sf => weight elem sf * N p sf) n_sf.

Definition numerGrad (j : nat) (p : Point) (i : nat) : Real :=
  weight elem i * dN j p i.
Definition denomGrad (j : nat) (p : Point) : Real :=
  Rsum (fun sf => weight elem sf * dN j p sf) n_sf.

Definition numerHess (j : nat) (p : Point) (i : nat) : Real :=
  weight elem i * d2N j p i.
Definition denomHess (j : nat) (p : Point) : Real :=
  Rsum (fun sf => weight elem sf * d2N j p sf) n_sf.

(** Section 4.2: [numer / denom]. *)
Definition value (i : nat) (p : Point) : Real :=
  numer p i / denom p.

(** Section 4.3: [(denom*numerGrad - numer*denomGrad) / denom^2]. *)
Definition first_derivative (i j : nat) (p : Point) : Real :=
  (denom p * numerGrad j p i - numer p i * denomGrad j p) / (denom p)^2.

(** Section 4.4, 1D case. *)
Definition second_derivative_1D (i : nat) (p : Point) : Real :=
  ((denom p)^2 * (denom p * numerHess 0 p i - numer p i * denomHess 0 p) -
   (denom p * numerGrad 0 p i - numer p i * denomGrad 0 p) *
   2 * denom p * denomGrad 0 p) / (denom p)^4.

(** Section 4.4, 3D case, for the axis pair [(j1, j2)] of the direction
    index [j]: [gradaSum] and [gradbSum] are the weighted sums of the
    first derivatives along [j1] and [j2], [numerA] and [numerB] their
    [sf == i] picks. *)
Definition second_derivative_3D (j1 j2 : nat) (i j : nat) (p : Point) : Real :=
  let gradaSum := denomGrad j1 p in
  let gradbSum := denomGrad j2 p in
  let hessSum := denomHess j p in
  let numerA := numerGrad j1 p i in
  let numerB := numerGrad j2 p i in
  let numerH := numerHess j p i in
  (denom p * numerH - numerA * gradbSum - numer p i * hessSum -
   numerB * gradaSum + 2 * gradaSum * numer p i * gradbSum / denom p) /
  (denom p)^2.

End Formulas.
End Spec.

(** Summing the results of [n] calls, failing with the first that fails. *)
Fixpoint sum_results (f : nat -> result Real) (n : nat) : result Real :=
  match n with
  | O => Ok 0
  | S k => s <- sum_results f k ;; v <- f k ;; Ok (s + v)
  end.

(** ** Two instances of the underlying basis

    The Bernstein basis itself is evaluated by code outside these two
    files, and every theorem below holds for any [FEInterface.t].  The two
    instances here are concrete inputs on which the operations are
    evaluated. *)

(** A sample [FEInterface]: the quadratic Bernstein basis on the edge
    [-1, 1], listed left to right, so that its values at the midpoint are
    1/4, 1/2, 1/4. *)
Module EdgeQuadratic.

Definition B (k : nat) (x : Real) : Real :=
  match k with
  | 0%nat => (1 - x) * (1 - x) / 4
  | 1%nat => (1 - x) * (1 + x) / 2
  | 2%nat => (1 + x) * (1 + x) / 4
  | _ => 0
  end.

Definition dB (k : nat) (x : Real) : Real :=
  match k with
  | 0%nat => - (1 - x) / 2
  | 1%nat => - x
  | 2%nat => (1 + x) / 2
  | _ => 0
  end.

Definition d2B (k : nat) (x : Real) : Real :=
  match k with
  | 0%nat => 1 / 2
  | 1%nat => - 1
  | 2%nat => 1 / 2
  | _ => 0
  end.

Definition interface : FEInterface.t := {|
  FEInterface.n_shape_functions := fun _ _ _ => 3%nat;
  FEInterface.shape := fun _ _ _ sf p => B sf (xi p);
  FEInterface.shape_deriv := fun _ _ _ sf _ p => dB sf (xi p);
  FEInterface.shape_second_deriv := fun _ _ _ sf _ p => d2B sf (xi p)
|}.

(** A three-node edge whose nodes carry the weights [w0], [w1], [w2]. *)
Definition elem (w0 w1 w2 : Real) : Elem := {|
  type := EDGE3;
  p_level := 0;
  mapping_data := 0;
  nodes := [ {| get_extra_datum := fun _ => w0 |};
             {| get_extra_datum := fun _ => w1 |};
             {| get_extra_datum := fun _ => w2 |} ]
|}.

Definition midpoint : Point := {| xi := 0; eta := 0; zeta := 0 |}.

End EdgeQuadratic.

(** A sample [FEInterface]: the first-order Bernstein basis on the
    hexahedron [-1, 1]^3, the tensor product of the two linear edge
    functions [(1 - x)/2] and [(1 + x)/2], with its exact derivatives. *)
Module HexLinear.

(** The edge function [k] differentiated [d] times. *)
Definition axis_factor (d k : nat) (x : Real) : Real :=
  match d, k with
  | 0%nat, 0%nat => (1 - x) / 2
  | 0%nat, 1%nat => (1 + x) / 2
  | 1%nat, 0%nat => - (1 / 2)
  | 1%nat, 1%nat => 1 / 2
  | _, _ => 0
  end.

Definition i0 : list nat := [0; 1; 1; 0; 0; 1; 1; 0]%nat.
Definition i1 : list nat := [0; 0; 1; 1; 0; 0; 1; 1]%nat.
Definition i2 : list nat := [0; 0; 0; 0; 1; 1; 1; 1]%nat.

(** Shape function [sf] differentiated [a], [b], [c] times along the
    three axes. *)
Definition partial (a b c : nat) (sf : nat) (p : Point) : Real :=
  axis_factor a (nth sf i0 2%nat) (xi p) *
  axis_factor b (nth sf i1 2%nat) (eta p) *
  axis_factor c (nth sf i2 2%nat) (zeta p).

Definition interface : FEInterface.t := {|
  FEInterface.n_shape_functions := fun _ _ _ => 8%nat;
  FEInterface.shape := fun _ _ _ sf p => partial 0 0 0 sf p;
  FEInterface.shape_deriv := fun _ _ _ sf j p =>
    match j with
    | 0%nat => partial 1 0 0 sf p
    | 1%nat => partial 0 1 0 sf p
    | 2%nat => partial 0 0 1 sf p
    | _ => 0
    end;
  FEInterface.shape_second_deriv := fun _ _ _ sf j p =>
    match j with
    | 0%nat => partial 2 0 0 sf p
    | 1%nat => partial 1 1 0 sf p
    | 2%nat => partial 0 2 0 sf p
    | 3%nat => partial 1 0 1 sf p
    | 4%nat => partial 0 1 1 sf p
    | 5%nat => partial 0 0 2 sf p
    | _ => 0
    end
|}.

(** An eight-node hexahedron whose node 0 carries the weight [w0] and
    whose other nodes carry the weight 1. *)
Definition elem (w0 : Real) : Elem := {|
  type := HEX8;
  p_level := 0;
  mapping_data := 0;
  nodes := {| get_extra_datum := fun _ => w0 |} ::
           repeat {| get_extra_datum := fun _ => 1 |} 7
|}.

Definition centre : Point := {| xi := 0; eta := 0; zeta := 0 |}.

End HexLinear.

(** ** Loops as sums and picks *)

Lemma nth_fill_node_weights (elem : Elem) (sf : nat) :
  nth sf (fill_node_weights elem) 0 = weight elem sf.
Proof.
  unfold fill_node_weights, weight, node_ref, n_nodes.
  destruct (Nat.lt_ge_cases sf (length (nodes elem))) as [Hlt | Hge].
  - rewrite (nth_indep _ 0
      (get_extra_datum (nth 0%nat (nodes elem) {| get_extra_datum := fun _ => 0 |})
                       (mapping_data elem))).
    + rewrite (map_nth (fun n => get_extra_datum (nth n (nodes elem) _) _)).
      now rewrite seq_nth.
    + now rewrite length_map, length_seq.
  - rewrite !nth_overflow; trivial.
    now rewrite length_map, length_seq.
Qed.

Lemma Rsum_ext (f g : nat -> Real) (n : nat) :
  (forall sf, (sf < n)%nat -> f sf = g sf) -> Rsum f n = Rsum g n.
Proof.
  induction n as [| n IH]; intros H; simpl; trivial.
  rewrite IH, H; auto.
Qed.

Lemma pick_S (i : nat) (f : nat -> Real) (n : nat) :
  pick i f (S n) = if (n =? i)%nat then f n else pick i f n.
Proof.
  unfold pick.
  destruct (Nat.eqb_spec n i) as [-> | Hne].
  - now rewrite (proj2 (Nat.ltb_lt i (S i))) by lia.
  - destruct (Nat.ltb_spec i n), (Nat.ltb_spec i (S n)); trivial; lia.
Qed.

Lemma pick_in_range (i : nat) (f : nat -> Real) (n : nat) :
  (i < n)%nat -> pick i f n = f i.
Proof. intros H; unfold pick; now rewrite (proj2 (Nat.ltb_lt i n)). Qed.

Lemma pick_out_of_range (i : nat) (f : nat -> Real) (n : nat) :
  (n <= i)%nat -> pick i f n = 0.
Proof. intros H; unfold pick; now rewrite (proj2 (Nat.ltb_ge i n)). Qed.

Ltac loop_induction n :=
  induction n as [| n IH];
  [ reflexivity
  | rewrite seq_S, fold_left_app, IH; simpl; rewrite !pick_S;
    destruct (Nat.eqb _ _); reflexivity ].

Lemma loop_shape (w f : nat -> Real) (i n : nat) :
  fold_left
    (fun '(weighted_shape_i, weighted_sum) sf =>
       let weighted_shape := w sf * f sf in
       let weighted_sum := weighted_sum + weighted_shape in
       let weighted_shape_i :=
         if (sf =? i)%nat then weighted_shape else weighted_shape_i in
       (weighted_shape_i, weighted_sum))
    (seq 0 n) (0, 0)
  = (pick i (fun sf => w sf * f sf) n, Rsum (fun sf => w sf * f sf) n).
Proof. loop_induction n. Qed.

Lemma loop_shape_deriv (w f g : nat -> Real) (i n : nat) :
  fold_left
    (fun '(weighted_shape_i, weighted_sum,
           weighted_grad_i, weighted_grad_sum) sf =>
       let weighted_shape := w sf * f sf in
       let weighted_grad := w sf * g sf in
       let weighted_sum := weighted_sum + weighted_shape in
       let weighted_grad_sum := weighted_grad_sum + weighted_grad in
       if (sf =? i)%nat
       then (weighted_shape, weighted_sum, weighted_grad, weighted_grad_sum)
       else (weighted_shape_i, weighted_sum,
             weighted_grad_i, weighted_grad_sum))
    (seq 0 n) (0, 0, 0, 0)
  = (pick i (fun sf => w sf * f sf) n, Rsum (fun sf => w sf * f sf) n,
     pick i (fun sf => w sf * g sf) n, Rsum (fun sf => w sf * g sf) n).
Proof. loop_induction n. Qed.

Lemma loop_shape_second_deriv (w f g h : nat -> Real) (i n : nat) :
  fold_left
    (fun '(weighted_shape_i, weighted_sum,
           weighted_grad_i, weighted_grad_sum,
           weighted_hess_i, weighted_hess_sum) sf =>
       let weighted_shape := w sf * f sf in
       let weighted_grad := w sf * g sf in
       let weighted_hess := w sf * h sf in
       let weighted_sum := weighted_sum + weighted_shape in
       let weighted_grad_sum := weighted_grad_sum + weighted_grad in
       let weighted_hess_sum := weighted_hess_sum + weighted_hess in
       if (sf =? i)%nat
       then (weighted_shape, weighted_sum,
             weighted_grad, weighted_grad_sum,
             weighted_hess, weighted_hess_sum)
       else (weighted_shape_i, weighted_sum,
             weighted_grad_i, weighted_grad_sum,
             weighted_hess_i, weighted_hess_sum))
    (seq 0 n) (0, 0, 0, 0, 0, 0)
  = (pick i (fun sf => w sf * f sf) n, Rsum (fun sf => w sf * f sf) n,
     pick i (fun sf => w sf * g sf) n, Rsum (fun sf => w sf * g sf) n,
     pick i (fun sf => w sf * h sf) n, Rsum (fun sf => w sf * h sf) n).
Proof. loop_induction n. Qed.

(** The loop of the 3D second derivative, with [same] standing for
    [j1 == j2].  When the axes differ, the loop adds [weighted_grada] to
    [weighted_grada_sum] a second time and leaves [weighted_gradb_sum] at
    its initial value. *)
Lemma loop_shape_second_deriv_3D (w f ga gb h : nat -> Real) (same : bool)
      (i n : nat) :
  fold_left
    (fun '(weighted_shape_i, weighted_sum,
           weighted_grada_i, weighted_grada_sum,
           weighted_gradb_i, weighted_gradb_sum,
           weighted_hess_i, weighted_hess_sum) sf =>
       let weighted_shape := w sf * f sf in
       let weighted_grada := w sf * ga sf in
       let weighted_hess := w sf * h sf in
       let weighted_sum := weighted_sum + weighted_shape in
       let weighted_grada_sum := weighted_grada_sum + weighted_grada in
       let weighted_gradb := weighted_grada in
       let '(weighted_gradb, weighted_grada_sum) :=
         if negb same
         then ((if same then weighted_grada else w sf * gb sf),
               weighted_grada_sum + weighted_grada)
         else (weighted_gradb, weighted_grada_sum) in
       let weighted_hess_sum := weighted_hess_sum + weighted_hess in
       if (sf =? i)%nat
       then (weighted_shape, weighted_sum,
             weighted_grada, weighted_grada_sum,
             weighted_gradb, weighted_gradb_sum,
             weighted_hess, weighted_hess_sum)
       else (weighted_shape_i, weighted_sum,
             weighted_grada_i, weighted_grada_sum,
             weighted_gradb_i, weighted_gradb_sum,
             weighted_hess_i, weighted_hess_sum))
    (seq 0 n) (0, 0, 0, 0, 0, 0, 0, 0)
  = (pick i (fun sf => w sf * f sf) n, Rsum (fun sf => w sf * f sf) n,
     pick i (fun sf => w sf * ga sf) n,
     (if same then Rsum (fun sf => w sf * ga sf) n
      else 2 * Rsum (fun sf => w sf * ga sf) n),
     pick i (fun sf => w sf * (if same then ga sf else gb sf)) n,
     0,
     pick i (fun sf => w sf * h sf) n, Rsum (fun sf => w sf * h sf) n).
Proof.
  destruct same; simpl.
  - loop_induction n.
  - induction n as [| n IH].
    + simpl. now replace (2 * 0) with 0 by ring.
    + rewrite seq_S, fold_left_app, IH; simpl; rewrite !pick_S.
      match goal with
      | |- context [2 * (?s + ?x)] =>
          replace (2 * (s + x)) with (2 * s + x + x) by ring
      end.
      destruct (Nat.eqb _ _); reflexivity.
Qed.

(** ** What each operation returns on a concrete element *)

Section Returns.
Variable fe : FEInterface.t.
Variable elem : Elem.
Variable ord : Order.
Variable add_p_level : bool.

Local Abbreviation n_sf := (Spec.n_sf fe elem ord add_p_level).
Local Abbreviation N := (Spec.N fe elem ord add_p_level).
Local Abbreviation dN := (Spec.dN fe elem ord add_p_level).
Local Abbreviation d2N := (Spec.d2N fe elem ord add_p_level).
Local Abbreviation denom := (Spec.denom fe elem ord add_p_level).
Local Abbreviation denomGrad := (Spec.denomGrad fe elem ord add_p_level).
Local Abbreviation denomHess := (Spec.denomHess fe elem ord add_p_level).

(** The assertion [n_sf == n_nodes] holds. *)
Hypothesis shape_count : n_sf = n_nodes elem.

Lemma assert_shape_count :
  libmesh_assert_equal_to
    (FEInterface.n_shape_functions fe
       {| order := ord; family := _underlying_fe_family |}
       (extra_order_of add_p_level elem) elem)
    (n_nodes elem) = Ok tt.
Proof.
  unfold libmesh_assert_equal_to.
  fold n_sf. rewrite shape_count, Nat.eqb_refl. reflexivity.
Qed.

Lemma Rsum_weights (g : nat -> Real) (n : nat) :
  Rsum (fun sf => nth sf (fill_node_weights elem) 0 * g sf) n =
  Rsum (fun sf => weight elem sf * g sf) n.
Proof.
  apply Rsum_ext; intros sf _. now rewrite nth_fill_node_weights.
Qed.

Lemma pick_weights (g : nat -> Real) (i n : nat) :
  pick i (fun sf => nth sf (fill_node_weights elem) 0 * g sf) n =
  pick i (fun sf => weight elem sf * g sf) n.
Proof. unfold pick. now rewrite nth_fill_node_weights. Qed.

Ltac enter_body :=
  cbn [bind libmesh_assert]; rewrite assert_shape_count; cbn [bind].

Lemma FE1_shape_returns (i : nat) (p : Point) :
  FE1.shape fe (Some elem) ord i p add_p_level =
  Ok (pick i (fun sf => weight elem sf * N p sf) n_sf / denom p).
Proof.
  unfold FE1.shape. enter_body.
  rewrite (loop_shape (fun sf => nth sf (fill_node_weights elem) 0)).
  now rewrite Rsum_weights, pick_weights.
Qed.

Lemma FE3_shape_returns (i : nat) (p : Point) :
  FE3.shape fe (Some elem) ord i p add_p_level =
  Ok (pick i (fun sf => weight elem sf * N p sf) n_sf / denom p).
Proof.
  unfold FE3.shape. enter_body.
  rewrite (loop_shape (fun sf => nth sf (fill_node_weights elem) 0)).
  now rewrite Rsum_weights, pick_weights.
Qed.

Lemma FE1_shape_deriv_returns (i : nat) (p : Point) :
  FE1.shape_deriv fe (Some elem) ord i 0 p add_p_level =
  Ok ((denom p * pick i (fun sf => weight elem sf * dN 0 p sf) n_sf -
       pick i (fun sf => weight elem sf * N p sf) n_sf * denomGrad 0 p) /
      denom p / denom p).
Proof.
  unfold FE1.shape_deriv.
  change (libmesh_assert_equal_to 0 0) with (Ok tt). enter_body.
  rewrite (loop_shape_deriv (fun sf => nth sf (fill_node_weights elem) 0)).
  now rewrite !Rsum_weights, !pick_weights.
Qed.

Lemma FE3_shape_deriv_returns (i j : nat) (p : Point) :
  FE3.shape_deriv fe (Some elem) ord i j p add_p_level =
  Ok ((denom p * pick i (fun sf => weight elem sf * dN j p sf) n_sf -
       pick i (fun sf => weight elem sf * N p sf) n_sf * denomGrad j p) /
      denom p / denom p).
Proof.
  unfold FE3.shape_deriv. enter_body.
  rewrite (loop_shape_deriv (fun sf => nth sf (fill_node_weights elem) 0)).
  now rewrite !Rsum_weights, !pick_weights.
Qed.

Lemma FE1_shape_second_deriv_returns (i : nat) (p : Point) :
  FE1.shape_second_deriv fe (Some elem) ord i 0 p add_p_level =
  Ok ((denom p * denom p *
       (denom p * pick i (fun sf => weight elem sf * d2N 0 p sf) n_sf -
        pick i (fun sf => weight elem sf * N p sf) n_sf * denomHess 0 p) -
       (denom p * pick i (fun sf => weight elem sf * dN 0 p sf) n_sf -
        pick i (fun sf => weight elem sf * N p sf) n_sf * denomGrad 0 p) *
       2 * denom p * denomGrad 0 p) /
      (denom p * denom p * denom p * denom p)).
Proof.
  unfold FE1.shape_second_deriv.
  change (libmesh_assert_equal_to 0 0) with (Ok tt). enter_body.
  rewrite (loop_shape_second_deriv
             (fun sf => nth sf (fill_node_weights elem) 0)).
  now rewrite !Rsum_weights, !pick_weights.
Qed.

(** The body of the 3D second derivative.  [gradaSum] is the weighted
    sum along [j1] when the axes agree and twice that sum when they
    differ; [gradbSum] is [gradaSum] when the axes agree and 0 when they
    differ. *)
Lemma FE3_shape_second_deriv_body_returns (j1 j2 i j : nat) (p : Point) :
  FE3.shape_second_deriv_body fe j1 j2 (Some elem) ord i j p add_p_level =
  let same := (j1 =? j2)%nat in
  let gradaSum := if same then denomGrad j1 p else 2 * denomGrad j1 p in
  let gradbSum := if same then gradaSum else 0 in
  let numer := pick i (fun sf => weight elem sf * N p sf) n_sf in
  let numerA := pick i (fun sf => weight elem sf * dN j1 p sf) n_sf in
  let numerB :=
    pick i (fun sf => weight elem sf *
                      (if same then dN j1 p sf else dN j2 p sf)) n_sf in
  let numerH := pick i (fun sf => weight elem sf * d2N j p sf) n_sf in
  Ok ((denom p * numerH - numerA * gradbSum - numer * denomHess j p -
       numerB * gradaSum + 2 * gradaSum * numer * gradbSum / denom p) /
      denom p / denom p).
Proof.
  unfold FE3.shape_second_deriv_body. enter_body.
  rewrite (loop_shape_second_deriv_3D
             (fun sf => nth sf (fill_node_weights elem) 0)
             _ _ (fun sf => FEInterface.shape_deriv fe _ _ elem sf j2 p)).
  cbv zeta.
  now rewrite !Rsum_weights, !pick_weights.
Qed.

End Returns.

(** ** Sums, and derivatives of sums *)

Lemma Rsum_div (g : nat -> Real) (d : Real) (n : nat) :
  Rsum (fun sf => g sf / d) n = Rsum g n / d.
Proof.
  induction n as [| n IH]; simpl.
  - unfold Rdiv. ring.
  - rewrite IH. unfold Rdiv. ring.
Qed.

Lemma sum_results_Ok (f : nat -> result Real) (v : nat -> Real) (n : nat) :
  (forall i, (i < n)%nat -> f i = Ok (v i)) ->
  sum_results f n = Ok (Rsum v n).
Proof.
  induction n as [| n IH]; intros H; simpl.
  - reflexivity.
  - rewrite IH by (intros; apply H; lia).
    rewrite (H n) by lia. reflexivity.
Qed.

Lemma shift_0 (p : Point) (j : nat) : shift p j 0 = p.
Proof.
  destruct p as [x y z]; destruct j as [| [| j]]; simpl;
    rewrite Rplus_0_r; reflexivity.
Qed.

Lemma derivable_pt_lim_Rsum (g : Real -> nat -> Real) (g' : nat -> Real)
      (x : Real) (n : nat) :
  (forall sf, (sf < n)%nat -> derivable_pt_lim (fun h => g h sf) x (g' sf)) ->
  derivable_pt_lim (fun h => Rsum (g h) n) x (Rsum g' n).
Proof.
  induction n as [| n IH]; intros H; simpl.
  - apply derivable_pt_lim_const.
  - apply (derivable_pt_lim_plus (fun h => Rsum (g h) n) (fun h => g h n)).
    + apply IH; intros; apply H; lia.
    + apply H; lia.
Qed.

Lemma derivable_pt_lim_weighted (w : Real) (f : Real -> Real) (x l : Real) :
  derivable_pt_lim f x l ->
  derivable_pt_lim (fun h => w * f h) x (w * l).
Proof. intros H. apply (derivable_pt_lim_scal f w x l H). Qed.

(** The quotient rule in the shape the code evaluates it. *)
Lemma derivable_pt_lim_ratio (u v : Real -> Real) (x u' v' : Real) :
  derivable_pt_lim u x u' ->
  derivable_pt_lim v x v' ->
  v x <> 0 ->
  derivable_pt_lim (fun h => u h / v h) x ((v x * u' - u x * v') / (v x)^2).
Proof.
  intros Hu Hv Hne.
  replace ((v x * u' - u x * v') / (v x)^2)
    with ((u' * v x - v' * u x) / Rsqr (v x))
    by (unfold Rsqr; field; exact Hne).
  apply (derivable_pt_lim_div u v x u' v' Hu Hv Hne).
Qed.

(** ** The value operation *)

(** C1.  On a non-null element whose shape count equals its node count,
    and for a shape index [i] below that count, [shape] returns, in 1D and
    in 3D, [w[i]*N[i](p)] divided by the sum of [w[sf]*N[sf](p)] over all
    shape functions.  In particular, when the weights are 1, 2, 1 and the
    underlying values at the point are 1/4, 1/2, 1/4, the 1D value is 2/3
    for [i = 1] and 1/6 for [i = 0] and [i = 2]. *)
Theorem shape_is_weighted_ratio
        (fe : FEInterface.t) (elem : Elem) (ord : Order) (i : nat)
        (p : Point) (add_p_level : bool)
        (shape_count : Spec.n_sf fe elem ord add_p_level = n_nodes elem)
        (i_valid : (i < Spec.n_sf fe elem ord add_p_level)%nat) :
  FE1.shape fe (Some elem) ord i p add_p_level =
    Ok (Spec.value fe elem ord add_p_level i p) /\
  FE3.shape fe (Some elem) ord i p add_p_level =
    Ok (Spec.value fe elem ord add_p_level i p) /\
  (fill_node_weights elem = [1; 2; 1] ->
   map (Spec.N fe elem ord add_p_level p) (seq 0 3) = [1/4; 1/2; 1/4] ->
   FE1.shape fe (Some elem) ord i p add_p_level =
     Ok (if (i =? 1)%nat then 2/3 else 1/6)).
Proof.
  assert (H1 : FE1.shape fe (Some elem) ord i p add_p_level =
               Ok (Spec.value fe elem ord add_p_level i p)).
  { rewrite FE1_shape_returns by exact shape_count.
    rewrite pick_in_range by exact i_valid. reflexivity. }
  split; [exact H1 | split].
  - rewrite FE3_shape_returns by exact shape_count.
    rewrite pick_in_range by exact i_valid. reflexivity.
  - intros Hw HN. rewrite H1. f_equal.
    assert (Hn : Spec.n_sf fe elem ord add_p_level = 3%nat).
    { rewrite shape_count. unfold n_nodes.
      apply (f_equal (@length _)) in Hw.
      unfold fill_node_weights in Hw.
      rewrite length_map, length_seq in Hw. exact Hw. }
    assert (W : forall sf, weight elem sf = nth sf [1; 2; 1] 0).
    { intros sf. now rewrite <- nth_fill_node_weights, Hw. }
    injection HN as N0 N1 N2.
    unfold Spec.value, Spec.numer, Spec.denom.
    rewrite Hn in *. simpl Rsum.
    rewrite !W, N0, N1, N2. simpl nth.
    destruct i as [| [| [| i]]]; try lia; rewrite ?W, ?N0, ?N1, ?N2;
      simpl; field.
Qed.

Lemma shape_is_weighted_ratio_witness :
  FE1.shape EdgeQuadratic.interface (Some (EdgeQuadratic.elem 1 2 1))
            SECOND 1 EdgeQuadratic.midpoint false = Ok (2/3).
Proof.
  apply (proj2 (proj2 (shape_is_weighted_ratio
                         EdgeQuadratic.interface (EdgeQuadratic.elem 1 2 1)
                         SECOND 1 EdgeQuadratic.midpoint false
                         eq_refl (le_S 2 2 (le_n 2))))).
  - reflexivity.
  - simpl. repeat (f_equal; try lra).
Defined.

(** C2.  Partition of unity: on a non-null element whose shape count
    equals its node count, at a point where the weighted denominator is
    not zero, the results of [shape] for all shape indices sum to 1, in 1D
    and in 3D. *)
Theorem shape_partition_of_unity
        (fe : FEInterface.t) (elem : Elem) (ord : Order)
        (p : Point) (add_p_level : bool)
        (shape_count : Spec.n_sf fe elem ord add_p_level = n_nodes elem)
        (denom_nonzero : Spec.denom fe elem ord add_p_level p <> 0) :
  sum_results (fun i => FE1.shape fe (Some elem) ord i p add_p_level)
              (Spec.n_sf fe elem ord add_p_level) = Ok 1 /\
  sum_results (fun i => FE3.shape fe (Some elem) ord i p add_p_level)
              (Spec.n_sf fe elem ord add_p_level) = Ok 1.
Proof.
  assert (Hsum :
    Rsum (fun i => weight elem i * Spec.N fe elem ord add_p_level p i /
                   Spec.denom fe elem ord add_p_level p)
         (Spec.n_sf fe elem ord add_p_level) = 1).
  { rewrite Rsum_div. fold (Spec.denom fe elem ord add_p_level p).
    now apply Rdiv_diag. }
  split; rewrite <- Hsum; apply sum_results_Ok; intros i Hi.
  - rewrite FE1_shape_returns by exact shape_count.
    now rewrite pick_in_range.
  - rewrite FE3_shape_returns by exact shape_count.
    now rewrite pick_in_range.
Qed.

Lemma shape_partition_of_unity_witness :
  sum_results
    (fun i => FE1.shape EdgeQuadratic.interface
                        (Some (EdgeQuadratic.elem 1 2 1)) SECOND i
                        EdgeQuadratic.midpoint false) 3 = Ok 1.
Proof.
  apply (shape_partition_of_unity
           EdgeQuadratic.interface (EdgeQuadratic.elem 1 2 1) SECOND
           EdgeQuadratic.midpoint false eq_refl).
  cbv [Spec.denom Spec.n_sf Spec.N Rsum weight node_ref nth mapping_data
       nodes get_extra_datum EdgeQuadratic.elem EdgeQuadratic.interface
       EdgeQuadratic.midpoint EdgeQuadratic.B xi FEInterface.shape
       FEInterface.n_shape_functions].
  lra.
Defined.

(** C7.  When every node weight is 1 and the underlying basis sums to 1 at
    the point (the partition-of-unity property of the Bernstein family),
    [shape] returns the underlying basis value [N[i](p)], in 1D and in
    3D. *)
Theorem shape_unit_weights
        (fe : FEInterface.t) (elem : Elem) (ord : Order) (i : nat)
        (p : Point) (add_p_level : bool)
        (shape_count : Spec.n_sf fe elem ord add_p_level = n_nodes elem)
        (i_valid : (i < Spec.n_sf fe elem ord add_p_level)%nat)
        (unit_weights :
           forall sf, (sf < n_nodes elem)%nat -> weight elem sf = 1)
        (underlying_unity :
           Rsum (Spec.N fe elem ord add_p_level p)
                (Spec.n_sf fe elem ord add_p_level) = 1) :
  FE1.shape fe (Some elem) ord i p add_p_level =
    Ok (FEInterface.shape fe
          {| order := ord; family := _underlying_fe_family |}
          (extra_order_of add_p_level elem) elem i p) /\
  FE3.shape fe (Some elem) ord i p add_p_level =
    Ok (FEInterface.shape fe
          {| order := ord; family := _underlying_fe_family |}
          (extra_order_of add_p_level elem) elem i p).
Proof.
  assert (Hden : Spec.denom fe elem ord add_p_level p = 1).
  { rewrite <- underlying_unity. unfold Spec.denom.
    apply Rsum_ext; intros sf Hsf.
    rewrite unit_weights by (rewrite <- shape_count; exact Hsf). ring. }
  fold (Spec.N fe elem ord add_p_level p i).
  rewrite FE1_shape_returns, FE3_shape_returns by exact shape_count.
  rewrite pick_in_range by exact i_valid.
  rewrite Hden, unit_weights by (rewrite <- shape_count; exact i_valid).
  split; f_equal; field.
Qed.

Lemma shape_unit_weights_witness :
  FE1.shape EdgeQuadratic.interface (Some (EdgeQuadratic.elem 1 1 1))
            SECOND 1 EdgeQuadratic.midpoint false =
  Ok (EdgeQuadratic.B 1 0).
Proof.
  apply (shape_unit_weights
           EdgeQuadratic.interface (EdgeQuadratic.elem 1 1 1) SECOND 1
           EdgeQuadratic.midpoint false eq_refl (le_S 2 2 (le_n 2))).
  - intros sf Hsf. destruct sf as [| [| [| sf]]]; try reflexivity.
    unfold n_nodes in Hsf. simpl in Hsf. lia.
  - cbv [Spec.n_sf Spec.N Rsum EdgeQuadratic.interface
         EdgeQuadratic.midpoint EdgeQuadratic.B xi FEInterface.shape
         FEInterface.n_shape_functions].
    field.
Defined.

(** C10.  On a non-null element whose shape count equals its node count,
    at a point where the weighted denominator is not zero, [shape] called
    with a shape index at or above the shape count raises no error and
    returns 0, in 1D and in 3D. *)
Theorem shape_index_out_of_range
        (fe : FEInterface.t) (elem : Elem) (ord : Order) (i : nat)
        (p : Point) (add_p_level : bool)
        (shape_count : Spec.n_sf fe elem ord add_p_level = n_nodes elem)
        (denom_nonzero : Spec.denom fe elem ord add_p_level p <> 0)
        (i_invalid : (Spec.n_sf fe elem ord add_p_level <= i)%nat) :
  FE1.shape fe (Some elem) ord i p add_p_level = Ok 0 /\
  FE3.shape fe (Some elem) ord i p add_p_level = Ok 0.
Proof.
  rewrite FE1_shape_returns, FE3_shape_returns by exact shape_count.
  rewrite pick_out_of_range by exact i_invalid.
  split; f_equal; field; exact denom_nonzero.
Qed.

Lemma shape_index_out_of_range_witness :
  FE1.shape EdgeQuadratic.interface (Some (EdgeQuadratic.elem 1 2 1))
            SECOND 3 EdgeQuadratic.midpoint false = Ok 0 /\
  FE3.shape EdgeQuadratic.interface (Some (EdgeQuadratic.elem 1 2 1))
            SECOND 3 EdgeQuadratic.midpoint false = Ok 0.
Proof.
  apply (shape_index_out_of_range
           EdgeQuadratic.interface (EdgeQuadratic.elem 1 2 1) SECOND 3
           EdgeQuadratic.midpoint false eq_refl).
  - cbv [Spec.denom Spec.n_sf Spec.N Rsum weight node_ref nth mapping_data
         nodes get_extra_datum EdgeQuadratic.elem EdgeQuadratic.interface
         EdgeQuadratic.midpoint EdgeQuadratic.B xi FEInterface.shape
         FEInterface.n_shape_functions].
    lra.
  - apply le_n.
Defined.

(** ** The first derivative *)

(** C3.  On a non-null element whose shape count equals its node count,
    for a valid shape index and a point where the denominator is not zero,
    [shape_deriv] returns [(denom*numerGrad - numer*denomGrad)/denom^2]:
    in 1D for the only direction 0, in 3D for the direction [j] it is
    given.  [shape] returns the value ratio at every point, and whenever
    the underlying first derivatives are the derivatives of the underlying
    values along axis [j], the returned quantity is the derivative of that
    ratio along axis [j]. *)
Theorem shape_deriv_quotient_rule
        (fe : FEInterface.t) (elem : Elem) (ord : Order) (i j : nat)
        (p : Point) (add_p_level : bool)
        (shape_count : Spec.n_sf fe elem ord add_p_level = n_nodes elem)
        (i_valid : (i < Spec.n_sf fe elem ord add_p_level)%nat)
        (denom_nonzero : Spec.denom fe elem ord add_p_level p <> 0) :
  FE1.shape_deriv fe (Some elem) ord i 0 p add_p_level =
    Ok (Spec.first_derivative fe elem ord add_p_level i 0 p) /\
  FE3.shape_deriv fe (Some elem) ord i j p add_p_level =
    Ok (Spec.first_derivative fe elem ord add_p_level i j p) /\
  (forall q,
     FE1.shape fe (Some elem) ord i q add_p_level =
       Ok (Spec.value fe elem ord add_p_level i q) /\
     FE3.shape fe (Some elem) ord i q add_p_level =
       Ok (Spec.value fe elem ord add_p_level i q)) /\
  ((forall sf, (sf < Spec.n_sf fe elem ord add_p_level)%nat ->
      derivable_pt_lim
        (fun h => Spec.N fe elem ord add_p_level (shift p j h) sf) 0
        (Spec.dN fe elem ord add_p_level j p sf)) ->
   derivable_pt_lim
     (fun h => Spec.value fe elem ord add_p_level i (shift p j h)) 0
     (Spec.first_derivative fe elem ord add_p_level i j p)).
Proof.
  split; [| split; [| split; [intros q; split |]]].
  - rewrite FE1_shape_deriv_returns by exact shape_count.
    rewrite !pick_in_range by exact i_valid.
    unfold Spec.first_derivative, Spec.numerGrad, Spec.numer.
    f_equal. field. exact denom_nonzero.
  - rewrite FE3_shape_deriv_returns by exact shape_count.
    rewrite !pick_in_range by exact i_valid.
    unfold Spec.first_derivative, Spec.numerGrad, Spec.numer.
    f_equal. field. exact denom_nonzero.
  - rewrite FE1_shape_returns by exact shape_count.
    now rewrite pick_in_range.
  - rewrite FE3_shape_returns by exact shape_count.
    now rewrite pick_in_range.
  - intros Hd.
    assert (Hu : derivable_pt_lim
                   (fun h => Spec.numer fe elem ord add_p_level (shift p j h) i)
                   0 (Spec.numerGrad fe elem ord add_p_level j p i)).
    { unfold Spec.numer, Spec.numerGrad.
      apply derivable_pt_lim_weighted, Hd, i_valid. }
    assert (Hv : derivable_pt_lim
                   (fun h => Spec.denom fe elem ord add_p_level (shift p j h))
                   0 (Spec.denomGrad fe elem ord add_p_level j p)).
    { unfold Spec.denom, Spec.denomGrad.
      apply (derivable_pt_lim_Rsum
               (fun h sf => weight elem sf *
                            Spec.N fe elem ord add_p_level (shift p j h) sf)
               (fun sf => weight elem sf *
                          Spec.dN fe elem ord add_p_level j p sf)).
      intros sf Hsf. apply derivable_pt_lim_weighted, Hd, Hsf. }
    pose proof (derivable_pt_lim_ratio _ _ 0 _ _ Hu Hv) as H.
    cbv beta in H. rewrite shift_0 in H.
    exact (H denom_nonzero).
Qed.

Lemma derivable_pt_lim_ext (f g : Real -> Real) (x l : Real) :
  (forall h, f h = g h) ->
  derivable_pt_lim f x l -> derivable_pt_lim g x l.
Proof.
  intros Hfg Hf eps Heps.
  destruct (Hf eps Heps) as [delta Hdelta].
  exists delta. intros h Hh Hlt.
  rewrite <- !Hfg. now apply Hdelta.
Qed.

Lemma derivable_pt_lim_quadratic (a b c x : Real) :
  derivable_pt_lim (fun h => a + b * h + c * (h * h)) x (b + 2 * c * x).
Proof.
  replace (b + 2 * c * x) with (0 + b * 1 + c * (1 * x + x * 1)) by ring.
  apply (derivable_pt_lim_plus (fun h => a + b * h) (fun h => c * (h * h))).
  - apply (derivable_pt_lim_plus (fun _ => a) (fun h => b * h)).
    + apply derivable_pt_lim_const.
    + apply derivable_pt_lim_weighted, derivable_pt_lim_id.
  - apply derivable_pt_lim_weighted.
    apply (derivable_pt_lim_mult id id); apply derivable_pt_lim_id.
Qed.

Lemma derivable_pt_lim_quadratic_0 (a b c : Real) :
  derivable_pt_lim (fun h => a + b * h + c * (h * h)) 0 b.
Proof.
  pose proof (derivable_pt_lim_quadratic a b c 0) as H.
  replace (b + 2 * c * 0) with b in H by ring. exact H.
Qed.

(** The derivatives of the sample quadratic basis are its derivatives. *)
Lemma EdgeQuadratic_dB_correct (k : nat) (x : Real) :
  derivable_pt_lim (fun h => EdgeQuadratic.B k (x + h)) 0
                   (EdgeQuadratic.dB k x).
Proof.
  destruct k as [| [| [| k]]]; simpl.
  - apply (derivable_pt_lim_ext
             (fun h => (1 - x) * (1 - x) / 4 + (- (1 - x) / 2) * h
                       + (1 / 4) * (h * h))).
    + intros h. field.
    + apply derivable_pt_lim_quadratic_0.
  - apply (derivable_pt_lim_ext
             (fun h => (1 - x) * (1 + x) / 2 + (- x) * h
                       + (- (1 / 2)) * (h * h))).
    + intros h. field.
    + apply derivable_pt_lim_quadratic_0.
  - apply (derivable_pt_lim_ext
             (fun h => (1 + x) * (1 + x) / 4 + ((1 + x) / 2) * h
                       + (1 / 4) * (h * h))).
    + intros h. field.
    + apply derivable_pt_lim_quadratic_0.
  - apply derivable_pt_lim_const.
Qed.

Lemma shape_deriv_quotient_rule_witness :
  FE1.shape_deriv EdgeQuadratic.interface (Some (EdgeQuadratic.elem 1 2 1))
                  SECOND 0 0 EdgeQuadratic.midpoint false =
    Ok (Spec.first_derivative EdgeQuadratic.interface
          (EdgeQuadratic.elem 1 2 1) SECOND false 0 0
          EdgeQuadratic.midpoint) /\
  derivable_pt_lim
    (fun h => Spec.value EdgeQuadratic.interface (EdgeQuadratic.elem 1 2 1)
                SECOND false 0 (shift EdgeQuadratic.midpoint 0 h)) 0
    (Spec.first_derivative EdgeQuadratic.interface
       (EdgeQuadratic.elem 1 2 1) SECOND false 0 0 EdgeQuadratic.midpoint).
Proof.
  assert (Hden : Spec.denom EdgeQuadratic.interface
                   (EdgeQuadratic.elem 1 2 1) SECOND false
                   EdgeQuadratic.midpoint <> 0).
  { cbv [Spec.denom Spec.n_sf Spec.N Rsum weight node_ref nth mapping_data
         nodes get_extra_datum EdgeQuadratic.elem EdgeQuadratic.interface
         EdgeQuadratic.midpoint EdgeQuadratic.B xi FEInterface.shape
         FEInterface.n_shape_functions].
    lra. }
  destruct (shape_deriv_quotient_rule
              EdgeQuadratic.interface (EdgeQuadratic.elem 1 2 1) SECOND
              0 0 EdgeQuadratic.midpoint false
              eq_refl (le_S 1 2 (le_S 1 1 (le_n 1))) Hden)
    as (H1 & _ & _ & Hderiv).
  split; [exact H1 | apply Hderiv].
  intros sf _. apply EdgeQuadratic_dB_correct.
Defined.

(** ** The second derivative *)

(** C6.  On a non-null 1D element whose shape count equals its node count,
    for a valid shape index and a point where the denominator is not zero,
    [shape_second_deriv] returns
    [(denom^2*(denom*numerHess - numer*denomHess)
      - (denom*numerGrad - numer*denomGrad)*2*denom*denomGrad)/denom^4]. *)
Theorem shape_second_deriv_1D_formula
        (fe : FEInterface.t) (elem : Elem) (ord : Order) (i : nat)
        (p : Point) (add_p_level : bool)
        (shape_count : Spec.n_sf fe elem ord add_p_level = n_nodes elem)
        (i_valid : (i < Spec.n_sf fe elem ord add_p_level)%nat)
        (denom_nonzero : Spec.denom fe elem ord add_p_level p <> 0) :
  FE1.shape_second_deriv fe (Some elem) ord i 0 p add_p_level =
    Ok (Spec.second_derivative_1D fe elem ord add_p_level i p).
Proof.
  rewrite FE1_shape_second_deriv_returns by exact shape_count.
  rewrite !pick_in_range by exact i_valid.
  unfold Spec.second_derivative_1D, Spec.numerHess, Spec.numerGrad,
    Spec.numer.
  f_equal. field. exact denom_nonzero.
Qed.

Lemma shape_second_deriv_1D_formula_witness :
  FE1.shape_second_deriv EdgeQuadratic.interface
                         (Some (EdgeQuadratic.elem 1 2 1)) SECOND 1 0
                         EdgeQuadratic.midpoint false =
    Ok (Spec.second_derivative_1D EdgeQuadratic.interface
          (EdgeQuadratic.elem 1 2 1) SECOND false 1
          EdgeQuadratic.midpoint).
Proof.
  apply (shape_second_deriv_1D_formula
           EdgeQuadratic.interface (EdgeQuadratic.elem 1 2 1) SECOND 1
           EdgeQuadratic.midpoint false eq_refl (le_S 2 2 (le_n 2))).
  cbv [Spec.denom Spec.n_sf Spec.N Rsum weight node_ref nth mapping_data
       nodes get_extra_datum EdgeQuadratic.elem EdgeQuadratic.interface
       EdgeQuadratic.midpoint EdgeQuadratic.B xi FEInterface.shape
       FEInterface.n_shape_functions].
  lra.
Defined.

(** ** Errors *)

(** C8.  In 1D and in 3D, the overloads of [shape], [shape_deriv] and
    [shape_second_deriv] that take an element type instead of an element
    fail with [MissingGeometry], whatever their arguments. *)
Theorem ElemType_overloads_fail
        (t : ElemType) (ord : Order) (i j : nat) (p : Point) :
  FE1.shape_ElemType t ord i p = Error MissingGeometry /\
  FE1.shape_deriv_ElemType t ord i j p = Error MissingGeometry /\
  FE1.shape_second_deriv_ElemType t ord i j p = Error MissingGeometry /\
  FE3.shape_ElemType t ord i p = Error MissingGeometry /\
  FE3.shape_deriv_ElemType t ord i j p = Error MissingGeometry /\
  FE3.shape_second_deriv_ElemType t ord i j p = Error MissingGeometry.
Proof. repeat split. Qed.

(** C9.  The 3D [shape_second_deriv] called with a direction index outside
    0..5 fails with [InvalidDirectionIndex], for every element, order,
    shape index and point. *)
Theorem shape_second_deriv_3D_invalid_direction
        (fe : FEInterface.t) (elem : Elem) (ord : Order) (i j : nat)
        (p : Point) (add_p_level : bool)
        (j_invalid : (6 <= j)%nat) :
  FE3.shape_second_deriv fe (Some elem) ord i j p add_p_level =
    Error InvalidDirectionIndex.
Proof.
  unfold FE3.shape_second_deriv.
  do 6 (destruct j as [| j]; [lia |]).
  reflexivity.
Qed.

Lemma shape_second_deriv_3D_invalid_direction_witness :
  FE3.shape_second_deriv HexLinear.interface (Some (HexLinear.elem 2))
                         FIRST 0 6 HexLinear.centre false =
    Error InvalidDirectionIndex.
Proof.
  apply (shape_second_deriv_3D_invalid_direction
           HexLinear.interface (HexLinear.elem 2) FIRST 0 6
           HexLinear.centre false (le_n 6)).
Defined.

(** ** The 3D second derivative *)

Ltac evaluate :=
  cbv - [Rplus Rmult Rminus Rdiv Ropp Rinv IZR pow R0 R1].

(** For a pure direction ([j1 = j2], the indices 0, 2 and 5) the body
    returns the formula of section 4.4. *)
Lemma shape_second_deriv_3D_pure
      (fe : FEInterface.t) (elem : Elem) (ord : Order) (i j a : nat)
      (p : Point) (add_p_level : bool)
      (shape_count : Spec.n_sf fe elem ord add_p_level = n_nodes elem)
      (i_valid : (i < Spec.n_sf fe elem ord add_p_level)%nat)
      (denom_nonzero : Spec.denom fe elem ord add_p_level p <> 0) :
  FE3.shape_second_deriv_body fe a a (Some elem) ord i j p add_p_level =
    Ok (Spec.second_derivative_3D fe elem ord add_p_level a a i j p).
Proof.
  rewrite FE3_shape_second_deriv_body_returns by exact shape_count.
  rewrite Nat.eqb_refl. cbv zeta.
  rewrite !pick_in_range by exact i_valid.
  unfold Spec.second_derivative_3D, Spec.numerHess, Spec.numerGrad,
    Spec.numer.
  f_equal. field. exact denom_nonzero.
Qed.

(** For a mixed direction ([j1 <> j2], the indices 1, 3 and 4) the body
    returns a quantity in which the sum along [j1] is doubled and the sum
    along [j2] is absent. *)
Lemma shape_second_deriv_3D_mixed
      (fe : FEInterface.t) (elem : Elem) (ord : Order) (i j j1 j2 : nat)
      (p : Point) (add_p_level : bool)
      (shape_count : Spec.n_sf fe elem ord add_p_level = n_nodes elem)
      (i_valid : (i < Spec.n_sf fe elem ord add_p_level)%nat)
      (denom_nonzero : Spec.denom fe elem ord add_p_level p <> 0)
      (mixed : j1 <> j2) :
  FE3.shape_second_deriv_body fe j1 j2 (Some elem) ord i j p add_p_level =
    Ok ((Spec.denom fe elem ord add_p_level p *
           Spec.numerHess fe elem ord add_p_level j p i -
         Spec.numer fe elem ord add_p_level p i *
           Spec.denomHess fe elem ord add_p_level j p -
         Spec.numerGrad fe elem ord add_p_level j2 p i *
           (2 * Spec.denomGrad fe elem ord add_p_level j1 p)) /
        (Spec.denom fe elem ord add_p_level p)^2).
Proof.
  rewrite FE3_shape_second_deriv_body_returns by exact shape_count.
  rewrite (proj2 (Nat.eqb_neq j1 j2) mixed). cbv zeta.
  rewrite !pick_in_range by exact i_valid.
  unfold Spec.numerHess, Spec.numerGrad, Spec.numer.
  f_equal. field. exact denom_nonzero.
Qed.

(** The formula of section 4.4 does not change when its two axes are
    exchanged. *)
Lemma second_derivative_3D_symmetric
      (fe : FEInterface.t) (elem : Elem) (ord : Order) (i j j1 j2 : nat)
      (p : Point) (add_p_level : bool) :
  Spec.second_derivative_3D fe elem ord add_p_level j1 j2 i j p =
  Spec.second_derivative_3D fe elem ord add_p_level j2 j1 i j p.
Proof.
  unfold Spec.second_derivative_3D, Rdiv. ring.
Qed.

(** C4.  On the first-order hexahedron whose node 0 has weight 2 and whose
    other nodes have weight 1, at the centre, for shape index 1 and the
    mixed direction index 1 (axes xi, eta), [shape_second_deriv] returns
    -4/27, while the formula of section 4.4, with each of [gradaSum] and
    [gradbSum] summed once per node, gives -88/729. *)
Theorem shape_second_deriv_3D_mixed_diverges :
  FE3.shape_second_deriv HexLinear.interface (Some (HexLinear.elem 2))
                         FIRST 1 1 HexLinear.centre false = Ok (- 4 / 27) /\
  Spec.second_derivative_3D HexLinear.interface (HexLinear.elem 2)
                            FIRST false 0 1 1 1 HexLinear.centre
    = - 88 / 729 /\
  - 4 / 27 <> - 88 / 729.
Proof.
  split; [| split].
  - unfold FE3.shape_second_deriv. cbn [FE3.decode_direction bind].
    rewrite FE3_shape_second_deriv_body_returns by reflexivity.
    evaluate. f_equal. field.
  - evaluate. field.
  - lra.
Qed.



(** ** Further properties of the operations *)

Lemma Rsum_quotient_rule (d G : Real) (n_ g_ : nat -> Real) (n : nat) :
  Rsum (fun i => (d * g_ i - n_ i * G) / d / d) n =
  (d * Rsum g_ n - Rsum n_ n * G) / d / d.
Proof.
  induction n as [| n IH]; simpl; [| rewrite IH]; unfold Rdiv; ring.
Qed.

Lemma Rsum_second_quotient_rule (d G H : Real) (n_ g_ h_ : nat -> Real)
      (n : nat) :
  Rsum (fun i => (d * d * (d * h_ i - n_ i * H) -
                  (d * g_ i - n_ i * G) * 2 * d * G) / (d * d * d * d)) n =
  (d * d * (d * Rsum h_ n - Rsum n_ n * H) -
   (d * Rsum g_ n - Rsum n_ n * G) * 2 * d * G) / (d * d * d * d).
Proof.
  induction n as [| n IH]; simpl; [| rewrite IH]; unfold Rdiv; ring.
Qed.

Lemma Rsum_pure_second_quotient_rule (d G H : Real) (n_ g_ h_ : nat -> Real)
      (n : nat) :
  Rsum (fun i => (d * h_ i - g_ i * G - n_ i * H - g_ i * G +
                  2 * G * n_ i * G / d) / d / d) n =
  (d * Rsum h_ n - Rsum g_ n * G - Rsum n_ n * H - Rsum g_ n * G +
   2 * G * Rsum n_ n * G / d) / d / d.
Proof.
  induction n as [| n IH]; simpl; [| rewrite IH]; unfold Rdiv; ring.
Qed.

(** X1.  On a non-null element whose shape count equals its node count, at
    a point where the denominator is not zero, the first derivatives
    returned for all shape indices sum to 0: in 1D for direction 0, in 3D
    for every direction [j]. *)
Theorem shape_deriv_sums_to_zero
        (fe : FEInterface.t) (elem : Elem) (ord : Order) (j : nat)
        (p : Point) (add_p_level : bool)
        (shape_count : Spec.n_sf fe elem ord add_p_level = n_nodes elem)
        (denom_nonzero : Spec.denom fe elem ord add_p_level p <> 0) :
  sum_results (fun i => FE1.shape_deriv fe (Some elem) ord i 0 p add_p_level)
              (Spec.n_sf fe elem ord add_p_level) = Ok 0 /\
  sum_results (fun i => FE3.shape_deriv fe (Some elem) ord i j p add_p_level)
              (Spec.n_sf fe elem ord add_p_level) = Ok 0.
Proof.
  assert (Hsum : forall k,
    Rsum (fun i =>
            (Spec.denom fe elem ord add_p_level p *
               (weight elem i * Spec.dN fe elem ord add_p_level k p i) -
             weight elem i * Spec.N fe elem ord add_p_level p i *
               Spec.denomGrad fe elem ord add_p_level k p) /
            Spec.denom fe elem ord add_p_level p /
            Spec.denom fe elem ord add_p_level p)
         (Spec.n_sf fe elem ord add_p_level) = 0).
  { intros k. rewrite Rsum_quotient_rule.
    fold (Spec.denom fe elem ord add_p_level p).
    fold (Spec.denomGrad fe elem ord add_p_level k p).
    field. exact denom_nonzero. }
  split.
  - rewrite <- (Hsum 0%nat). apply sum_results_Ok; intros i Hi.
    rewrite FE1_shape_deriv_returns by exact shape_count.
    now rewrite !pick_in_range.
  - rewrite <- (Hsum j). apply sum_results_Ok; intros i Hi.
    rewrite FE3_shape_deriv_returns by exact shape_count.
    now rewrite !pick_in_range.
Qed.

Lemma EdgeQuadratic_denom_midpoint :
  Spec.denom EdgeQuadratic.interface (EdgeQuadratic.elem 1 2 1) SECOND false
             EdgeQuadratic.midpoint <> 0.
Proof. evaluate. lra. Qed.

Lemma HexLinear_denom_centre :
  Spec.denom HexLinear.interface (HexLinear.elem 2) FIRST false
             HexLinear.centre <> 0.
Proof.
  replace (Spec.denom HexLinear.interface (HexLinear.elem 2) FIRST false
                      HexLinear.centre) with (9 / 8).
  - lra.
  - evaluate. field.
Qed.

Lemma shape_deriv_sums_to_zero_witness :
  sum_results
    (fun i => FE3.shape_deriv HexLinear.interface (Some (HexLinear.elem 2))
                              FIRST i 1 HexLinear.centre false) 8 = Ok 0.
Proof.
  apply (shape_deriv_sums_to_zero
           HexLinear.interface (HexLinear.elem 2) FIRST 1
           HexLinear.centre false eq_refl HexLinear_denom_centre).
Defined.

(** X2.  On a non-null 1D element whose shape count equals its node count,
    at a point where the denominator is not zero, the second derivatives
    returned for all shape indices sum to 0. *)
Theorem shape_second_deriv_1D_sums_to_zero
        (fe : FEInterface.t) (elem : Elem) (ord : Order)
        (p : Point) (add_p_level : bool)
        (shape_count : Spec.n_sf fe elem ord add_p_level = n_nodes elem)
        (denom_nonzero : Spec.denom fe elem ord add_p_level p <> 0) :
  sum_results
    (fun i => FE1.shape_second_deriv fe (Some elem) ord i 0 p add_p_level)
    (Spec.n_sf fe elem ord add_p_level) = Ok 0.
Proof.
  match goal with
  | |- sum_results ?f ?n = _ =>
      rewrite (sum_results_Ok f
        (fun i =>
           (Spec.denom fe elem ord add_p_level p *
              Spec.denom fe elem ord add_p_level p *
              (Spec.denom fe elem ord add_p_level p *
                 (weight elem i * Spec.d2N fe elem ord add_p_level 0 p i) -
               weight elem i * Spec.N fe elem ord add_p_level p i *
                 Spec.denomHess fe elem ord add_p_level 0 p) -
            (Spec.denom fe elem ord add_p_level p *
               (weight elem i * Spec.dN fe elem ord add_p_level 0 p i) -
             weight elem i * Spec.N fe elem ord add_p_level p i *
               Spec.denomGrad fe elem ord add_p_level 0 p) *
            2 * Spec.denom fe elem ord add_p_level p *
            Spec.denomGrad fe elem ord add_p_level 0 p) /
           (Spec.denom fe elem ord add_p_level p *
            Spec.denom fe elem ord add_p_level p *
            Spec.denom fe elem ord add_p_level p *
            Spec.denom fe elem ord add_p_level p)) n)
  end.
  - rewrite Rsum_second_quotient_rule.
    fold (Spec.denom fe elem ord add_p_level p).
    fold (Spec.denomGrad fe elem ord add_p_level 0 p).
    fold (Spec.denomHess fe elem ord add_p_level 0 p).
    f_equal. field. exact denom_nonzero.
  - intros i Hi.
    rewrite FE1_shape_second_deriv_returns by exact shape_count.
    now rewrite !pick_in_range.
Qed.

Lemma shape_second_deriv_1D_sums_to_zero_witness :
  sum_results
    (fun i => FE1.shape_second_deriv EdgeQuadratic.interface
                (Some (EdgeQuadratic.elem 1 2 1)) SECOND i 0
                EdgeQuadratic.midpoint false) 3 = Ok 0.
Proof.
  apply (shape_second_deriv_1D_sums_to_zero
           EdgeQuadratic.interface (EdgeQuadratic.elem 1 2 1) SECOND
           EdgeQuadratic.midpoint false eq_refl
           EdgeQuadratic_denom_midpoint).
Defined.

(** The 3D second derivative for a direction index the switch maps to a
    pair of equal axes. *)
Lemma FE3_shape_second_deriv_pure_returns
      (fe : FEInterface.t) (elem : Elem) (ord : Order) (i j a : nat)
      (p : Point) (add_p_level : bool)
      (shape_count : Spec.n_sf fe elem ord add_p_level = n_nodes elem)
      (pure : FE3.decode_direction j = Ok (a, a)) :
  FE3.shape_second_deriv fe (Some elem) ord i j p add_p_level =
  let n_sf := Spec.n_sf fe elem ord add_p_level in
  let denom := Spec.denom fe elem ord add_p_level p in
  let gradSum := Spec.denomGrad fe elem ord add_p_level a p in
  let hessSum := Spec.denomHess fe elem ord add_p_level j p in
  let numer :=
    pick i (fun sf => weight elem sf * Spec.N fe elem ord add_p_level p sf)
         n_sf in
  let numerA :=
    pick i (fun sf => weight elem sf * Spec.dN fe elem ord add_p_level a p sf)
         n_sf in
  let numerH :=
    pick i (fun sf => weight elem sf * Spec.d2N fe elem ord add_p_level j p sf)
         n_sf in
  Ok ((denom * numerH - numerA * gradSum - numer * hessSum -
       numerA * gradSum + 2 * gradSum * numer * gradSum / denom) /
      denom / denom).
Proof.
  unfold FE3.shape_second_deriv. rewrite pure. cbn [bind].
  rewrite FE3_shape_second_deriv_body_returns by exact shape_count.
  rewrite Nat.eqb_refl. reflexivity.
Qed.

(** X3.  On a non-null 3D element whose shape count equals its node count,
    at a point where the denominator is not zero, and for a direction
    index that the switch maps to a pair of equal axes (0, 2 or 5), the
    second derivatives returned for all shape indices sum to 0. *)
Theorem shape_second_deriv_3D_pure_sums_to_zero
        (fe : FEInterface.t) (elem : Elem) (ord : Order) (j a : nat)
        (p : Point) (add_p_level : bool)
        (shape_count : Spec.n_sf fe elem ord add_p_level = n_nodes elem)
        (denom_nonzero : Spec.denom fe elem ord add_p_level p <> 0)
        (pure : FE3.decode_direction j = Ok (a, a)) :
  sum_results
    (fun i => FE3.shape_second_deriv fe (Some elem) ord i j p add_p_level)
    (Spec.n_sf fe elem ord add_p_level) = Ok 0.
Proof.
  match goal with
  | |- sum_results ?f ?n = _ =>
      rewrite (sum_results_Ok f
        (fun i =>
           (Spec.denom fe elem ord add_p_level p *
              (weight elem i * Spec.d2N fe elem ord add_p_level j p i) -
            weight elem i * Spec.dN fe elem ord add_p_level a p i *
              Spec.denomGrad fe elem ord add_p_level a p -
            weight elem i * Spec.N fe elem ord add_p_level p i *
              Spec.denomHess fe elem ord add_p_level j p -
            weight elem i * Spec.dN fe elem ord add_p_level a p i *
              Spec.denomGrad fe elem ord add_p_level a p +
            2 * Spec.denomGrad fe elem ord add_p_level a p *
              (weight elem i * Spec.N fe elem ord add_p_level p i) *
              Spec.denomGrad fe elem ord add_p_level a p /
              Spec.denom fe elem ord add_p_level p) /
           Spec.denom fe elem ord add_p_level p /
           Spec.denom fe elem ord add_p_level p) n)
  end.
  - rewrite Rsum_pure_second_quotient_rule.
    fold (Spec.denom fe elem ord add_p_level p).
    fold (Spec.denomGrad fe elem ord add_p_level a p).
    fold (Spec.denomHess fe elem ord add_p_level j p).
    f_equal. field. exact denom_nonzero.
  - intros i Hi.
    rewrite (FE3_shape_second_deriv_pure_returns _ _ _ _ _ a)
      by assumption.
    cbv zeta. now rewrite !pick_in_range.
Qed.

Lemma shape_second_deriv_3D_pure_sums_to_zero_witness :
  sum_results
    (fun i => FE3.shape_second_deriv HexLinear.interface
                (Some (HexLinear.elem 2)) FIRST i 2
                HexLinear.centre false) 8 = Ok 0.
Proof.
  apply (shape_second_deriv_3D_pure_sums_to_zero
           HexLinear.interface (HexLinear.elem 2) FIRST 2 1
           HexLinear.centre false eq_refl HexLinear_denom_centre eq_refl).
Defined.

(** When every [sf == i] pick is 0, every operation returns 0. *)
Lemma no_pick_returns_zero
      (fe : FEInterface.t) (elem : Elem) (ord : Order) (i : nat)
      (p : Point) (add_p_level : bool)
      (shape_count : Spec.n_sf fe elem ord add_p_level = n_nodes elem)
      (denom_nonzero : Spec.denom fe elem ord add_p_level p <> 0)
      (no_pick : forall g,
         pick i (fun sf => weight elem sf * g sf)
              (Spec.n_sf fe elem ord add_p_level) = 0) :
  FE1.shape fe (Some elem) ord i p add_p_level = Ok 0 /\
  FE3.shape fe (Some elem) ord i p add_p_level = Ok 0 /\
  FE1.shape_deriv fe (Some elem) ord i 0 p add_p_level = Ok 0 /\
  (forall j, FE3.shape_deriv fe (Some elem) ord i j p add_p_level = Ok 0) /\
  FE1.shape_second_deriv fe (Some elem) ord i 0 p add_p_level = Ok 0 /\
  (forall j, (j < 6)%nat ->
     FE3.shape_second_deriv fe (Some elem) ord i j p add_p_level = Ok 0).
Proof.
  split; [| split; [| split; [| split; [| split]]]].
  - rewrite FE1_shape_returns by exact shape_count.
    rewrite no_pick. f_equal. now field.
  - rewrite FE3_shape_returns by exact shape_count.
    rewrite no_pick. f_equal. now field.
  - rewrite FE1_shape_deriv_returns by exact shape_count.
    rewrite !no_pick. f_equal. now field.
  - intros j. rewrite FE3_shape_deriv_returns by exact shape_count.
    rewrite !no_pick. f_equal. now field.
  - rewrite FE1_shape_second_deriv_returns by exact shape_count.
    rewrite !no_pick. f_equal. now field.
  - intros j Hj. unfold FE3.shape_second_deriv.
    do 6 (destruct j as [| j];
          [ cbn [FE3.decode_direction bind];
            rewrite FE3_shape_second_deriv_body_returns by exact shape_count;
            cbv zeta; rewrite !no_pick; f_equal; now field |]).
    lia.
Qed.

(** X4.  A node of weight 0 contributes nothing: on a non-null element
    whose shape count equals its node count, at a point where the
    denominator is not zero, the value, the first derivative and the
    second derivative of shape function [i] are all 0 when node [i] has
    weight 0, in 1D and in 3D (every direction index the operation
    accepts). *)
Theorem zero_weight_node_vanishes
        (fe : FEInterface.t) (elem : Elem) (ord : Order) (i : nat)
        (p : Point) (add_p_level : bool)
        (shape_count : Spec.n_sf fe elem ord add_p_level = n_nodes elem)
        (denom_nonzero : Spec.denom fe elem ord add_p_level p <> 0)
        (zero_weight : weight elem i = 0) :
  FE1.shape fe (Some elem) ord i p add_p_level = Ok 0 /\
  FE3.shape fe (Some elem) ord i p add_p_level = Ok 0 /\
  FE1.shape_deriv fe (Some elem) ord i 0 p add_p_level = Ok 0 /\
  (forall j, FE3.shape_deriv fe (Some elem) ord i j p add_p_level = Ok 0) /\
  FE1.shape_second_deriv fe (Some elem) ord i 0 p add_p_level = Ok 0 /\
  (forall j, (j < 6)%nat ->
     FE3.shape_second_deriv fe (Some elem) ord i j p add_p_level = Ok 0).
Proof.
  apply no_pick_returns_zero; try assumption.
  intros g. unfold pick. rewrite zero_weight.
  destruct (Nat.ltb _ _); ring.
Qed.

Lemma zero_weight_node_vanishes_witness :
  FE1.shape EdgeQuadratic.interface (Some (EdgeQuadratic.elem 1 0 1))
            SECOND 1 EdgeQuadratic.midpoint false = Ok 0.
Proof.
  refine (proj1 (zero_weight_node_vanishes
                   EdgeQuadratic.interface (EdgeQuadratic.elem 1 0 1)
                   SECOND 1 EdgeQuadratic.midpoint false eq_refl _ eq_refl)).
  evaluate. lra.
Defined.

(** X5.  No operation checks the shape index: on a non-null element whose
    shape count equals its node count, at a point where the denominator is
    not zero, the first and second derivatives called with a shape index
    at or above the shape count raise no error and return 0, in 1D and in
    3D (every direction index the operation accepts). *)
Theorem derivative_index_out_of_range
        (fe : FEInterface.t) (elem : Elem) (ord : Order) (i : nat)
        (p : Point) (add_p_level : bool)
        (shape_count : Spec.n_sf fe elem ord add_p_level = n_nodes elem)
        (denom_nonzero : Spec.denom fe elem ord add_p_level p <> 0)
        (i_invalid : (Spec.n_sf fe elem ord add_p_level <= i)%nat) :
  FE1.shape_deriv fe (Some elem) ord i 0 p add_p_level = Ok 0 /\
  (forall j, FE3.shape_deriv fe (Some elem) ord i j p add_p_level = Ok 0) /\
  FE1.shape_second_deriv fe (Some elem) ord i 0 p add_p_level = Ok 0 /\
  (forall j, (j < 6)%nat ->
     FE3.shape_second_deriv fe (Some elem) ord i j p add_p_level = Ok 0).
Proof.
  apply (no_pick_returns_zero fe elem ord i p add_p_level shape_count
                              denom_nonzero).
  intros g. now apply pick_out_of_range.
Qed.

Lemma derivative_index_out_of_range_witness :
  FE3.shape_second_deriv HexLinear.interface (Some (HexLinear.elem 2))
                         FIRST 8 1 HexLinear.centre false = Ok 0.
Proof.
  refine (proj2 (proj2 (proj2 (derivative_index_out_of_range
                   HexLinear.interface (HexLinear.elem 2)
                   FIRST 8 HexLinear.centre false eq_refl
                   HexLinear_denom_centre (le_n 8)))) 1%nat _).
  repeat constructor.
Defined.

Lemma Rsum_nonneg (g : nat -> Real) (n : nat) :
  (forall sf, (sf < n)%nat -> 0 <= g sf) -> 0 <= Rsum g n.
Proof.
  induction n as [| n IH]; intros H; simpl.
  - lra.
  - assert (0 <= Rsum g n) by (apply IH; intros; apply H; lia).
    assert (0 <= g n) by (apply H; lia). lra.
Qed.

Lemma pick_bounds (i : nat) (g : nat -> Real) (n : nat) :
  (forall sf, (sf < n)%nat -> 0 <= g sf) ->
  0 <= pick i g n <= Rsum g n.
Proof.
  induction n as [| n IH]; intros H.
  - unfold pick; simpl. lra.
  - assert (0 <= Rsum g n) by (apply Rsum_nonneg; intros; apply H; lia).
    assert (0 <= g n) by (apply H; lia).
    assert (0 <= pick i g n <= Rsum g n) by (apply IH; intros; apply H; lia).
    rewrite pick_S. simpl. destruct (Nat.eqb n i); lra.
Qed.

(** X6.  With weights and underlying values that are not negative, the
    value lies between 0 and 1: on a non-null element whose shape count
    equals its node count, at a point where the denominator is not zero,
    [shape] returns, in 1D and in 3D and for every shape index, a value
    [v] with [0 <= v <= 1]. *)
Theorem shape_between_zero_and_one
        (fe : FEInterface.t) (elem : Elem) (ord : Order) (i : nat)
        (p : Point) (add_p_level : bool)
        (shape_count : Spec.n_sf fe elem ord add_p_level = n_nodes elem)
        (denom_nonzero : Spec.denom fe elem ord add_p_level p <> 0)
        (nonnegative :
           forall sf, (sf < Spec.n_sf fe elem ord add_p_level)%nat ->
             0 <= weight elem sf /\
             0 <= Spec.N fe elem ord add_p_level p sf) :
  exists v,
    FE1.shape fe (Some elem) ord i p add_p_level = Ok v /\
    FE3.shape fe (Some elem) ord i p add_p_level = Ok v /\
    0 <= v <= 1.
Proof.
  rewrite FE1_shape_returns, FE3_shape_returns by exact shape_count.
  eexists. split; [reflexivity | split; [reflexivity |]].
  destruct (pick_bounds i
              (fun sf => weight elem sf *
                         Spec.N fe elem ord add_p_level p sf)
              (Spec.n_sf fe elem ord add_p_level)) as [Hlo Hhi].
  { intros sf Hsf. destruct (nonnegative sf Hsf).
    now apply Rmult_le_pos. }
  fold (Spec.denom fe elem ord add_p_level p) in Hhi.
  assert (Hpos : 0 < Spec.denom fe elem ord add_p_level p) by lra.
  split.
  - apply Rmult_le_pos; [exact Hlo |].
    left. now apply Rinv_0_lt_compat.
  - apply (Rmult_le_reg_r (Spec.denom fe elem ord add_p_level p)); trivial.
    unfold Rdiv. rewrite Rmult_assoc, Rinv_l by exact denom_nonzero. lra.
Qed.

Lemma shape_between_zero_and_one_witness :
  exists v,
    FE1.shape EdgeQuadratic.interface (Some (EdgeQuadratic.elem 1 2 1))
              SECOND 1 EdgeQuadratic.midpoint false = Ok v /\
    FE3.shape EdgeQuadratic.interface (Some (EdgeQuadratic.elem 1 2 1))
              SECOND 1 EdgeQuadratic.midpoint false = Ok v /\
    0 <= v <= 1.
Proof.
  apply (shape_between_zero_and_one
           EdgeQuadratic.interface (EdgeQuadratic.elem 1 2 1) SECOND 1
           EdgeQuadratic.midpoint false eq_refl
           EdgeQuadratic_denom_midpoint).
  intros sf Hsf.
  destruct sf as [| [| [| sf]]];
    [ evaluate; split; nra .. | exfalso; revert Hsf; evaluate; lia ].
Defined.

Lemma Rsum_scal (c : Real) (g : nat -> Real) (n : nat) :
  Rsum (fun sf => c * g sf) n = c * Rsum g n.
Proof.
  induction n as [| n IH]; simpl; [| rewrite IH]; ring.
Qed.

(** X7.  Only the ratios of the weights matter: when the weights of one
    element are those of another multiplied by a nonzero constant [c],
    and the underlying basis has the same shape count, values and first
    derivatives on both, [shape] and [shape_deriv] return the same result
    on both, in 1D and in 3D. *)
Theorem weights_scale_invariant
        (fe : FEInterface.t) (elem elem' : Elem) (ord : Order) (i j : nat)
        (p : Point) (add_p_level : bool) (c : Real)
        (shape_count : Spec.n_sf fe elem ord add_p_level = n_nodes elem)
        (shape_count' : Spec.n_sf fe elem' ord add_p_level = n_nodes elem')
        (same_count : Spec.n_sf fe elem' ord add_p_level =
                      Spec.n_sf fe elem ord add_p_level)
        (same_values : forall sf,
           Spec.N fe elem' ord add_p_level p sf =
           Spec.N fe elem ord add_p_level p sf)
        (same_derivs : forall k sf,
           Spec.dN fe elem' ord add_p_level k p sf =
           Spec.dN fe elem ord add_p_level k p sf)
        (scaled : forall sf, (sf < Spec.n_sf fe elem ord add_p_level)%nat ->
           weight elem' sf = c * weight elem sf)
        (c_nonzero : c <> 0)
        (denom_nonzero : Spec.denom fe elem ord add_p_level p <> 0) :
  FE1.shape fe (Some elem') ord i p add_p_level =
    FE1.shape fe (Some elem) ord i p add_p_level /\
  FE3.shape fe (Some elem') ord i p add_p_level =
    FE3.shape fe (Some elem) ord i p add_p_level /\
  FE1.shape_deriv fe (Some elem') ord i 0 p add_p_level =
    FE1.shape_deriv fe (Some elem) ord i 0 p add_p_level /\
  FE3.shape_deriv fe (Some elem') ord i j p add_p_level =
    FE3.shape_deriv fe (Some elem) ord i j p add_p_level.
Proof.
  assert (Hsum : forall g' g : nat -> Real,
            (forall sf, g' sf = g sf) ->
            Rsum (fun sf => weight elem' sf * g' sf)
                 (Spec.n_sf fe elem' ord add_p_level) =
            c * Rsum (fun sf => weight elem sf * g sf)
                     (Spec.n_sf fe elem ord add_p_level)).
  { intros g' g Hg. rewrite same_count, <- Rsum_scal.
    apply Rsum_ext; intros sf Hsf. rewrite scaled, Hg by exact Hsf. ring. }
  assert (Hpick : forall g' g : nat -> Real,
            (forall sf, g' sf = g sf) ->
            pick i (fun sf => weight elem' sf * g' sf)
                 (Spec.n_sf fe elem' ord add_p_level) =
            c * pick i (fun sf => weight elem sf * g sf)
                       (Spec.n_sf fe elem ord add_p_level)).
  { intros g' g Hg. rewrite same_count. unfold pick.
    destruct (Nat.ltb_spec i (Spec.n_sf fe elem ord add_p_level)) as [Hi | Hi].
    - rewrite scaled, Hg by exact Hi. ring.
    - ring. }
  assert (Hden : Spec.denom fe elem' ord add_p_level p =
                 c * Spec.denom fe elem ord add_p_level p).
  { unfold Spec.denom. now apply Hsum. }
  assert (Hgrad : forall k,
            Spec.denomGrad fe elem' ord add_p_level k p =
            c * Spec.denomGrad fe elem ord add_p_level k p).
  { intros k. unfold Spec.denomGrad. apply Hsum, same_derivs. }
  rewrite !FE1_shape_returns, ?FE3_shape_returns,
    !FE1_shape_deriv_returns, !FE3_shape_deriv_returns by assumption.
  rewrite Hden, !Hgrad.
  rewrite (Hpick _ _ same_values).
  rewrite (Hpick _ _ (same_derivs 0%nat)), (Hpick _ _ (same_derivs j)).
  repeat split; f_equal; field; split; assumption.
Qed.

Lemma weights_scale_invariant_witness :
  FE1.shape EdgeQuadratic.interface (Some (EdgeQuadratic.elem 2 4 2))
            SECOND 1 EdgeQuadratic.midpoint false =
  FE1.shape EdgeQuadratic.interface (Some (EdgeQuadratic.elem 1 2 1))
            SECOND 1 EdgeQuadratic.midpoint false.
Proof.
  refine (proj1 (weights_scale_invariant
                   EdgeQuadratic.interface (EdgeQuadratic.elem 1 2 1)
                   (EdgeQuadratic.elem 2 4 2) SECOND 1 0
                   EdgeQuadratic.midpoint false 2
                   eq_refl eq_refl eq_refl (fun _ => eq_refl)
                   (fun _ _ => eq_refl) _ _
                   EdgeQuadratic_denom_midpoint)).
  - intros sf Hsf.
    destruct sf as [| [| [| sf]]]; evaluate; try lra.
    exfalso. revert Hsf. evaluate. lia.
  - lra.
Defined.

(** ** Failed assertions and forwarding overloads *)

(** X8.  Called with a null element, every operation fails its assertion,
    in 1D and in 3D, through the [Order] and the [FEType] overloads alike.
    The 3D second derivative is the one exception: its switch runs first,
    so a direction index outside 0..5 is reported as
    [InvalidDirectionIndex] even for a null element. *)
Theorem null_element_fails
        (fe : FEInterface.t) (ord : Order) (fet : FEType) (i j : nat)
        (p : Point) (add_p_level : bool) :
  FE1.shape fe None ord i p add_p_level = Error AssertionFailure /\
  FE3.shape fe None ord i p add_p_level = Error AssertionFailure /\
  FE1.shape_deriv fe None ord i j p add_p_level = Error AssertionFailure /\
  FE3.shape_deriv fe None ord i j p add_p_level = Error AssertionFailure /\
  FE1.shape_second_deriv fe None ord i j p add_p_level =
    Error AssertionFailure /\
  FE3.shape_second_deriv fe None ord i j p add_p_level =
    Error (if (j <? 6)%nat then AssertionFailure
           else InvalidDirectionIndex) /\
  FE1.shape_FEType fe fet None i p add_p_level = Error AssertionFailure /\
  FE3.shape_FEType fe fet None i p add_p_level = Error AssertionFailure /\
  FE1.shape_deriv_FEType fe fet None i j p add_p_level =
    Error AssertionFailure /\
  FE3.shape_deriv_FEType fe fet None i j p add_p_level =
    Error AssertionFailure /\
  FE1.shape_second_deriv_FEType fe fet None i j p add_p_level =
    Error AssertionFailure /\
  FE3.shape_second_deriv_FEType fe fet None i j p add_p_level =
    Error (if (j <? 6)%nat then AssertionFailure
           else InvalidDirectionIndex).
Proof.
  assert (H1 : FE1.shape_deriv fe None ord i j p add_p_level =
               Error AssertionFailure) by (destruct j; reflexivity).
  assert (H2 : FE1.shape_second_deriv fe None ord i j p add_p_level =
               Error AssertionFailure) by (destruct j; reflexivity).
  assert (H3 : forall o,
            FE3.shape_second_deriv fe None o i j p add_p_level =
            Error (if (j <? 6)%nat then AssertionFailure
                   else InvalidDirectionIndex)).
  { intros o. do 6 (destruct j as [| j]; [reflexivity |]). reflexivity. }
  repeat split; trivial; apply H3.
Qed.

(** X9.  When the underlying basis reports a shape count different from
    the element's node count, every operation on the element fails its
    assertion: in 1D, and in 3D for every direction index that passes the
    switch. *)
Theorem shape_count_mismatch_fails
        (fe : FEInterface.t) (elem : Elem) (ord : Order) (i j : nat)
        (p : Point) (add_p_level : bool)
        (mismatch : Spec.n_sf fe elem ord add_p_level <> n_nodes elem) :
  FE1.shape fe (Some elem) ord i p add_p_level = Error AssertionFailure /\
  FE3.shape fe (Some elem) ord i p add_p_level = Error AssertionFailure /\
  FE1.shape_deriv fe (Some elem) ord i j p add_p_level =
    Error AssertionFailure /\
  FE3.shape_deriv fe (Some elem) ord i j p add_p_level =
    Error AssertionFailure /\
  FE1.shape_second_deriv fe (Some elem) ord i j p add_p_level =
    Error AssertionFailure /\
  ((j < 6)%nat ->
   FE3.shape_second_deriv fe (Some elem) ord i j p add_p_level =
     Error AssertionFailure).
Proof.
  assert (Hassert :
    libmesh_assert_equal_to
      (FEInterface.n_shape_functions fe
         {| order := ord; family := _underlying_fe_family |}
         (extra_order_of add_p_level elem) elem)
      (n_nodes elem) = Error AssertionFailure).
  { unfold libmesh_assert_equal_to.
    fold (Spec.n_sf fe elem ord add_p_level).
    now rewrite (proj2 (Nat.eqb_neq _ _) mismatch). }
  split; [| split; [| split; [| split; [| split]]]].
  - unfold FE1.shape. cbn [bind libmesh_assert]. now rewrite Hassert.
  - unfold FE3.shape. cbn [bind libmesh_assert]. now rewrite Hassert.
  - unfold FE1.shape_deriv. destruct j; [| reflexivity].
    change (libmesh_assert_equal_to 0 0) with (Ok tt).
    cbn [bind libmesh_assert]. now rewrite Hassert.
  - unfold FE3.shape_deriv. cbn [bind libmesh_assert]. now rewrite Hassert.
  - unfold FE1.shape_second_deriv. destruct j; [| reflexivity].
    change (libmesh_assert_equal_to 0 0) with (Ok tt).
    cbn [bind libmesh_assert]. now rewrite Hassert.
  - intros Hj. unfold FE3.shape_second_deriv, FE3.shape_second_deriv_body.
    do 6 (destruct j as [| j];
          [ cbn [FE3.decode_direction bind libmesh_assert];
            now rewrite Hassert |]).
    lia.
Qed.

Lemma shape_count_mismatch_fails_witness :
  FE3.shape EdgeQuadratic.interface (Some (HexLinear.elem 2)) SECOND 0
            HexLinear.centre false = Error AssertionFailure.
Proof.
  refine (proj1 (proj2 (shape_count_mismatch_fails
                          EdgeQuadratic.interface (HexLinear.elem 2)
                          SECOND 0 0 HexLinear.centre false _))).
  evaluate. lia.
Defined.

(** X10.  In 1D the only direction is 0: [shape_deriv] and
    [shape_second_deriv] called with any other direction index fail their
    first assertion, whatever the element (null or not), the shape index
    and the point. *)
Theorem direction_1D_must_be_zero
        (fe : FEInterface.t) (elem : option Elem) (ord : Order) (i j : nat)
        (p : Point) (add_p_level : bool)
        (j_nonzero : j <> 0%nat) :
  FE1.shape_deriv fe elem ord i j p add_p_level = Error AssertionFailure /\
  FE1.shape_second_deriv fe elem ord i j p add_p_level =
    Error AssertionFailure.
Proof.
  destruct j as [| j]; [contradiction |]. split; reflexivity.
Qed.

Lemma direction_1D_must_be_zero_witness :
  FE1.shape_deriv EdgeQuadratic.interface (Some (EdgeQuadratic.elem 1 2 1))
                  SECOND 0 1 EdgeQuadratic.midpoint false =
    Error AssertionFailure.
Proof.
  refine (proj1 (direction_1D_must_be_zero
                   EdgeQuadratic.interface (Some (EdgeQuadratic.elem 1 2 1))
                   SECOND 0 1 EdgeQuadratic.midpoint false _)).
  discriminate.
Defined.

(** X12.  The switch of the 3D second derivative is a one-to-one
    correspondence between the direction indices 0..5 and the axis pairs
    [(j1, j2)] with [j1 <= j2 <= 2]: it succeeds exactly on those indices,
    every such pair is reached, and by one index only. *)
Theorem decode_direction_bijective :
  (forall j j1 j2,
     FE3.decode_direction j = Ok (j1, j2) ->
     (j < 6)%nat /\ (j1 <= j2 <= 2)%nat) /\
  (forall j, (j < 6)%nat -> exists j1 j2, FE3.decode_direction j = Ok (j1, j2)) /\
  (forall j1 j2, (j1 <= j2 <= 2)%nat ->
     exists j, FE3.decode_direction j = Ok (j1, j2)) /\
  (forall j j' j1 j2,
     FE3.decode_direction j = Ok (j1, j2) ->
     FE3.decode_direction j' = Ok (j1, j2) -> j = j').
Proof.
  split; [| split; [| split]].
  - intros j j1 j2 H.
    do 6 (destruct j as [| j]; [injection H as <- <-; lia |]).
    discriminate.
  - intros j Hj.
    do 6 (destruct j as [| j]; [eexists; eexists; reflexivity |]). lia.
  - intros j1 j2 H.
    destruct j1 as [| [| [| j1]]]; destruct j2 as [| [| [| j2]]]; try lia.
    + now exists 0%nat.
    + now exists 1%nat.
    + now exists 3%nat.
    + now exists 2%nat.
    + now exists 4%nat.
    + now exists 5%nat.
  - intros j j' j1 j2 H H'.
    do 6 (destruct j as [| j];
          [ injection H as <- <-;
            do 6 (destruct j' as [| j']; [try discriminate; reflexivity |]);
            discriminate |]).
    discriminate.
Qed.

(** ** The two files against each other *)

(** X13.  On a non-null element whose shape count equals its node count,
    at a point where the denominator is not zero, the 3D operations called
    along the first axis return what the 1D operations return: the same
    value, the same first derivative for direction 0, and the same second
    derivative for direction index 0, although the two second-derivative
    formulas are written differently. *)
Theorem FE3_agrees_with_FE1_along_xi
        (fe : FEInterface.t) (elem : Elem) (ord : Order) (i : nat)
        (p : Point) (add_p_level : bool)
        (shape_count : Spec.n_sf fe elem ord add_p_level = n_nodes elem)
        (denom_nonzero : Spec.denom fe elem ord add_p_level p <> 0) :
  FE3.shape fe (Some elem) ord i p add_p_level =
    FE1.shape fe (Some elem) ord i p add_p_level /\
  FE3.shape_deriv fe (Some elem) ord i 0 p add_p_level =
    FE1.shape_deriv fe (Some elem) ord i 0 p add_p_level /\
  FE3.shape_second_deriv fe (Some elem) ord i 0 p add_p_level =
    FE1.shape_second_deriv fe (Some elem) ord i 0 p add_p_level.
Proof.
  split; [reflexivity | split; [reflexivity |]].
  rewrite (FE3_shape_second_deriv_pure_returns fe elem ord i 0 0)
    by (trivial; reflexivity).
  rewrite FE1_shape_second_deriv_returns by exact shape_count.
  cbv zeta. f_equal. field. exact denom_nonzero.
Qed.

Lemma FE3_agrees_with_FE1_along_xi_witness :
  FE3.shape_second_deriv EdgeQuadratic.interface
    (Some (EdgeQuadratic.elem 1 2 1)) SECOND 1 0
    EdgeQuadratic.midpoint false =
  FE1.shape_second_deriv EdgeQuadratic.interface
    (Some (EdgeQuadratic.elem 1 2 1)) SECOND 1 0
    EdgeQuadratic.midpoint false.
Proof.
  apply (FE3_agrees_with_FE1_along_xi
           EdgeQuadratic.interface (EdgeQuadratic.elem 1 2 1) SECOND 1
           EdgeQuadratic.midpoint false eq_refl
           EdgeQuadratic_denom_midpoint).
Defined.

(** X14.  On a non-null 3D element whose shape count equals its node
    count, for a valid shape index, a point where the denominator is not
    zero and a direction index that the switch maps to a pair of equal
    axes [(a, a)] (0, 2 or 5), [shape_second_deriv] returns
    [(denom*numerH - 2*numerA*gradSum - numer*hessSum
      + 2*gradSum^2*numer/denom) / denom^2], the formula of section 4.4
    with both axes equal to [a]. *)
Theorem shape_second_deriv_3D_pure_formula
        (fe : FEInterface.t) (elem : Elem) (ord : Order) (i j a : nat)
        (p : Point) (add_p_level : bool)
        (shape_count : Spec.n_sf fe elem ord add_p_level = n_nodes elem)
        (i_valid : (i < Spec.n_sf fe elem ord add_p_level)%nat)
        (denom_nonzero : Spec.denom fe elem ord add_p_level p <> 0)
        (pure : FE3.decode_direction j = Ok (a, a)) :
  FE3.shape_second_deriv fe (Some elem) ord i j p add_p_level =
    Ok (Spec.second_derivative_3D fe elem ord add_p_level a a i j p) /\
  Spec.second_derivative_3D fe elem ord add_p_level a a i j p =
    (Spec.denom fe elem ord add_p_level p *
       Spec.numerHess fe elem ord add_p_level j p i -
     2 * Spec.numerGrad fe elem ord add_p_level a p i *
       Spec.denomGrad fe elem ord add_p_level a p -
     Spec.numer fe elem ord add_p_level p i *
       Spec.denomHess fe elem ord add_p_level j p +
     2 * (Spec.denomGrad fe elem ord add_p_level a p)^2 *
       Spec.numer fe elem ord add_p_level p i /
       Spec.denom fe elem ord add_p_level p) /
    (Spec.denom fe elem ord add_p_level p)^2.
Proof.
  split.
  - rewrite (FE3_shape_second_deriv_pure_returns fe elem ord i j a)
      by assumption.
    cbv zeta. rewrite !pick_in_range by exact i_valid.
    unfold Spec.second_derivative_3D, Spec.numerHess, Spec.numerGrad,
      Spec.numer.
    f_equal. field. exact denom_nonzero.
  - unfold Spec.second_derivative_3D. field. exact denom_nonzero.
Qed.

Lemma shape_second_deriv_3D_pure_formula_witness :
  FE3.shape_second_deriv HexLinear.interface (Some (HexLinear.elem 2))
                         FIRST 1 5 HexLinear.centre false =
    Ok (Spec.second_derivative_3D HexLinear.interface (HexLinear.elem 2)
          FIRST false 2 2 1 5 HexLinear.centre).
Proof.
  apply (shape_second_deriv_3D_pure_formula
           HexLinear.interface (HexLinear.elem 2) FIRST 1 5 2
           HexLinear.centre false eq_refl
           (le_S 2 7 (le_S 2 6 (le_S 2 5 (le_S 2 4 (le_S 2 3
              (le_S 2 2 (le_n 2)))))))
           HexLinear_denom_centre eq_refl).
Defined.

(** ** The second derivative as the derivative of the first *)

(** Differentiating the first-derivative ratio along axis [b] gives the
    formula of section 4.4 for the axes [(a, b)]. *)
Lemma first_derivative_derivable
      (fe : FEInterface.t) (elem : Elem) (ord : Order) (i j a b : nat)
      (p : Point) (add_p_level : bool)
      (i_valid : (i < Spec.n_sf fe elem ord add_p_level)%nat)
      (denom_nonzero : Spec.denom fe elem ord add_p_level p <> 0)
      (values_derivable :
         forall sf, (sf < Spec.n_sf fe elem ord add_p_level)%nat ->
           derivable_pt_lim
             (fun h => Spec.N fe elem ord add_p_level (shift p b h) sf) 0
             (Spec.dN fe elem ord add_p_level b p sf))
      (derivs_derivable :
         forall sf, (sf < Spec.n_sf fe elem ord add_p_level)%nat ->
           derivable_pt_lim
             (fun h => Spec.dN fe elem ord add_p_level a (shift p b h) sf) 0
             (Spec.d2N fe elem ord add_p_level j p sf)) :
  derivable_pt_lim
    (fun h => Spec.first_derivative fe elem ord add_p_level i a (shift p b h))
    0 (Spec.second_derivative_3D fe elem ord add_p_level a b i j p).
Proof.
  assert (Hn : derivable_pt_lim
                 (fun h => Spec.numer fe elem ord add_p_level (shift p b h) i)
                 0 (Spec.numerGrad fe elem ord add_p_level b p i)).
  { apply derivable_pt_lim_weighted, values_derivable, i_valid. }
  assert (Hd : derivable_pt_lim
                 (fun h => Spec.denom fe elem ord add_p_level (shift p b h))
                 0 (Spec.denomGrad fe elem ord add_p_level b p)).
  { apply (derivable_pt_lim_Rsum
             (fun h sf => weight elem sf *
                          Spec.N fe elem ord add_p_level (shift p b h) sf)
             (fun sf => weight elem sf *
                        Spec.dN fe elem ord add_p_level b p sf)).
    intros sf Hsf. apply derivable_pt_lim_weighted, values_derivable, Hsf. }
  assert (Hg : derivable_pt_lim
                 (fun h => Spec.numerGrad fe elem ord add_p_level a
                                          (shift p b h) i)
                 0 (Spec.numerHess fe elem ord add_p_level j p i)).
  { apply derivable_pt_lim_weighted, derivs_derivable, i_valid. }
  assert (HG : derivable_pt_lim
                 (fun h => Spec.denomGrad fe elem ord add_p_level a
                                          (shift p b h))
                 0 (Spec.denomHess fe elem ord add_p_level j p)).
  { apply (derivable_pt_lim_Rsum
             (fun h sf => weight elem sf *
                          Spec.dN fe elem ord add_p_level a (shift p b h) sf)
             (fun sf => weight elem sf *
                        Spec.d2N fe elem ord add_p_level j p sf)).
    intros sf Hsf. apply derivable_pt_lim_weighted, derivs_derivable, Hsf. }
  pose proof (derivable_pt_lim_minus _ _ _ _ _
                (derivable_pt_lim_mult _ _ _ _ _ Hd Hg)
                (derivable_pt_lim_mult _ _ _ _ _ Hn HG)) as HU.
  assert (HV : derivable_pt_lim
                 (fun h => Spec.denom fe elem ord add_p_level (shift p b h) ^ 2)
                 0 (2 * Spec.denom fe elem ord add_p_level p *
                    Spec.denomGrad fe elem ord add_p_level b p)).
  { pose proof (derivable_pt_lim_mult _ _ _ _ _ Hd Hd) as H.
    unfold mult_fct in H. cbv beta in H. rewrite shift_0 in H.
    apply (derivable_pt_lim_ext
             (fun h => Spec.denom fe elem ord add_p_level (shift p b h) *
                       Spec.denom fe elem ord add_p_level (shift p b h))).
    - intros h. ring.
    - match type of H with
      | derivable_pt_lim _ _ ?l =>
          replace (2 * Spec.denom fe elem ord add_p_level p *
                   Spec.denomGrad fe elem ord add_p_level b p) with l by ring
      end.
      exact H. }
  pose proof (derivable_pt_lim_ratio _ _ _ _ _ HU HV) as H.
  unfold minus_fct, mult_fct in H. cbv beta in H. rewrite !shift_0 in H.
  assert (Hne : Spec.denom fe elem ord add_p_level p ^ 2 <> 0)
    by (apply pow_nonzero; exact denom_nonzero).
  specialize (H Hne).
  match type of H with
  | derivable_pt_lim _ _ ?l =>
      replace (Spec.second_derivative_3D fe elem ord add_p_level a b i j p)
        with l
  end.
  - exact H.
  - unfold Spec.second_derivative_3D. field. exact denom_nonzero.
Qed.

(** X15.  In 1D, on a non-null element whose shape count equals its node
    count, for a valid shape index and a point where the denominator is
    not zero: when the underlying first and second derivatives are the
    derivatives of the underlying values and first derivatives along the
    axis, the quantity [shape_second_deriv] returns is the derivative
    along the axis of the quantity [shape_deriv] returns. *)
Theorem shape_second_deriv_1D_is_derivative
        (fe : FEInterface.t) (elem : Elem) (ord : Order) (i : nat)
        (p : Point) (add_p_level : bool)
        (shape_count : Spec.n_sf fe elem ord add_p_level = n_nodes elem)
        (i_valid : (i < Spec.n_sf fe elem ord add_p_level)%nat)
        (denom_nonzero : Spec.denom fe elem ord add_p_level p <> 0)
        (values_derivable :
           forall sf, (sf < Spec.n_sf fe elem ord add_p_level)%nat ->
             derivable_pt_lim
               (fun h => Spec.N fe elem ord add_p_level (shift p 0 h) sf) 0
               (Spec.dN fe elem ord add_p_level 0 p sf))
        (derivs_derivable :
           forall sf, (sf < Spec.n_sf fe elem ord add_p_level)%nat ->
             derivable_pt_lim
               (fun h => Spec.dN fe elem ord add_p_level 0 (shift p 0 h) sf) 0
               (Spec.d2N fe elem ord add_p_level 0 p sf)) :
  exists (first : Point -> Real) (second : Real),
    (forall q, Spec.denom fe elem ord add_p_level q <> 0 ->
       FE1.shape_deriv fe (Some elem) ord i 0 q add_p_level = Ok (first q)) /\
    FE1.shape_second_deriv fe (Some elem) ord i 0 p add_p_level = Ok second /\
    derivable_pt_lim (fun h => first (shift p 0 h)) 0 second.
Proof.
  exists (Spec.first_derivative fe elem ord add_p_level i 0),
         (Spec.second_derivative_3D fe elem ord add_p_level 0 0 i 0 p).
  split; [| split].
  - intros q Hq. rewrite FE1_shape_deriv_returns by exact shape_count.
    rewrite !pick_in_range by exact i_valid.
    unfold Spec.first_derivative, Spec.numerGrad, Spec.numer.
    f_equal. field. exact Hq.
  - rewrite FE1_shape_second_deriv_returns by exact shape_count.
    rewrite !pick_in_range by exact i_valid.
    unfold Spec.second_derivative_3D, Spec.numerHess, Spec.numerGrad,
      Spec.numer.
    f_equal. field. exact denom_nonzero.
  - now apply first_derivative_derivable.
Qed.

Lemma EdgeQuadratic_d2B_correct (k : nat) (x : Real) :
  derivable_pt_lim (fun h => EdgeQuadratic.dB k (x + h)) 0
                   (EdgeQuadratic.d2B k x).
Proof.
  destruct k as [| [| [| k]]]; simpl.
  - apply (derivable_pt_lim_ext
             (fun h => - (1 - x) / 2 + (1 / 2) * h + 0 * (h * h))).
    + intros h. field.
    + apply derivable_pt_lim_quadratic_0.
  - apply (derivable_pt_lim_ext
             (fun h => - x + (- 1) * h + 0 * (h * h))).
    + intros h. ring.
    + apply derivable_pt_lim_quadratic_0.
  - apply (derivable_pt_lim_ext
             (fun h => (1 + x) / 2 + (1 / 2) * h + 0 * (h * h))).
    + intros h. field.
    + apply derivable_pt_lim_quadratic_0.
  - apply derivable_pt_lim_const.
Qed.

Lemma shape_second_deriv_1D_is_derivative_witness :
  exists (first : Point -> Real) (second : Real),
    (forall q,
       Spec.denom EdgeQuadratic.interface (EdgeQuadratic.elem 1 2 1)
                  SECOND false q <> 0 ->
       FE1.shape_deriv EdgeQuadratic.interface
         (Some (EdgeQuadratic.elem 1 2 1)) SECOND 1 0 q false
       = Ok (first q)) /\
    FE1.shape_second_deriv EdgeQuadratic.interface
      (Some (EdgeQuadratic.elem 1 2 1)) SECOND 1 0
      EdgeQuadratic.midpoint false = Ok second /\
    derivable_pt_lim (fun h => first (shift EdgeQuadratic.midpoint 0 h))
                     0 second.
Proof.
  apply (shape_second_deriv_1D_is_derivative
           EdgeQuadratic.interface (EdgeQuadratic.elem 1 2 1) SECOND 1
           EdgeQuadratic.midpoint false eq_refl (le_S 2 2 (le_n 2))
           EdgeQuadratic_denom_midpoint).
  - intros sf _. apply EdgeQuadratic_dB_correct.
  - intros sf _. apply EdgeQuadratic_d2B_correct.
Defined.

(** X16.  In 3D, on a non-null element whose shape count equals its node
    count, for a valid shape index, a point where the denominator is not
    zero and a direction index that the switch maps to a pair of equal
    axes [(a, a)] (0, 2 or 5): when the underlying first and second
    derivatives are the derivatives of the underlying values and first
    derivatives along axis [a], the quantity [shape_second_deriv] returns
    is the derivative along axis [a] of the quantity [shape_deriv] returns
    for direction [a]. *)
Theorem shape_second_deriv_3D_pure_is_derivative
        (fe : FEInterface.t) (elem : Elem) (ord : Order) (i j a : nat)
        (p : Point) (add_p_level : bool)
        (shape_count : Spec.n_sf fe elem ord add_p_level = n_nodes elem)
        (i_valid : (i < Spec.n_sf fe elem ord add_p_level)%nat)
        (denom_nonzero : Spec.denom fe elem ord add_p_level p <> 0)
        (pure : FE3.decode_direction j = Ok (a, a))
        (values_derivable :
           forall sf, (sf < Spec.n_sf fe elem ord add_p_level)%nat ->
             derivable_pt_lim
               (fun h => Spec.N fe elem ord add_p_level (shift p a h) sf) 0
               (Spec.dN fe elem ord add_p_level a p sf))
        (derivs_derivable :
           forall sf, (sf < Spec.n_sf fe elem ord add_p_level)%nat ->
             derivable_pt_lim
               (fun h => Spec.dN fe elem ord add_p_level a (shift p a h) sf) 0
               (Spec.d2N fe elem ord add_p_level j p sf)) :
  exists (first : Point -> Real) (second : Real),
    (forall q, Spec.denom fe elem ord add_p_level q <> 0 ->
       FE3.shape_deriv fe (Some elem) ord i a q add_p_level = Ok (first q)) /\
    FE3.shape_second_deriv fe (Some elem) ord i j p add_p_level = Ok second /\
    derivable_pt_lim (fun h => first (shift p a h)) 0 second.
Proof.
  exists (Spec.first_derivative fe elem ord add_p_level i a),
         (Spec.second_derivative_3D fe elem ord add_p_level a a i j p).
  split; [| split].
  - intros q Hq. rewrite FE3_shape_deriv_returns by exact shape_count.
    rewrite !pick_in_range by exact i_valid.
    unfold Spec.first_derivative, Spec.numerGrad, Spec.numer.
    f_equal. field. exact Hq.
  - rewrite (FE3_shape_second_deriv_pure_returns fe elem ord i j a)
      by assumption.
    cbv zeta. rewrite !pick_in_range by exact i_valid.
    unfold Spec.second_derivative_3D, Spec.numerHess, Spec.numerGrad,
      Spec.numer.
    f_equal. field. exact denom_nonzero.
  - now apply first_derivative_derivable.
Qed.

Lemma HexLinear_axis_factor_correct (d k : nat) (x : Real) :
  derivable_pt_lim (fun h => HexLinear.axis_factor d k (x + h)) 0
                   (HexLinear.axis_factor (S d) k x).
Proof.
  destruct d as [| [| d]]; destruct k as [| [| k]]; simpl;
    try apply derivable_pt_lim_const.
  - apply (derivable_pt_lim_ext
             (fun h => (1 - x) / 2 + (- (1 / 2)) * h + 0 * (h * h))).
    + intros h. field.
    + apply derivable_pt_lim_quadratic_0.
  - apply (derivable_pt_lim_ext
             (fun h => (1 + x) / 2 + (1 / 2) * h + 0 * (h * h))).
    + intros h. field.
    + apply derivable_pt_lim_quadratic_0.
Qed.

Lemma HexLinear_partial_xi_correct (a b c sf : nat) (p : Point) :
  derivable_pt_lim (fun h => HexLinear.partial a b c sf (shift p 0 h)) 0
                   (HexLinear.partial (S a) b c sf p).
Proof.
  unfold HexLinear.partial.
  set (c1 := HexLinear.axis_factor b _ (eta p)).
  set (c2 := HexLinear.axis_factor c _ (zeta p)).
  apply (derivable_pt_lim_ext
           (fun h => (c1 * c2) *
                     HexLinear.axis_factor a (nth sf HexLinear.i0 2%nat)
                                           (xi p + h))).
  - intros h. cbn [shift xi eta zeta]. subst c1 c2. ring.
  - replace (HexLinear.axis_factor (S a) (nth sf HexLinear.i0 2%nat) (xi p) *
             c1 * c2)
      with ((c1 * c2) *
            HexLinear.axis_factor (S a) (nth sf HexLinear.i0 2%nat) (xi p))
      by ring.
    apply derivable_pt_lim_weighted, HexLinear_axis_factor_correct.
Qed.

Lemma shape_second_deriv_3D_pure_is_derivative_witness :
  exists (first : Point -> Real) (second : Real),
    (forall q,
       Spec.denom HexLinear.interface (HexLinear.elem 2) FIRST false q <> 0 ->
       FE3.shape_deriv HexLinear.interface (Some (HexLinear.elem 2))
                       FIRST 1 0 q false = Ok (first q)) /\
    FE3.shape_second_deriv HexLinear.interface (Some (HexLinear.elem 2))
                           FIRST 1 0 HexLinear.centre false = Ok second /\
    derivable_pt_lim (fun h => first (shift HexLinear.centre 0 h)) 0 second.
Proof.
  apply (shape_second_deriv_3D_pure_is_derivative
           HexLinear.interface (HexLinear.elem 2) FIRST 1 0 0
           HexLinear.centre false eq_refl
           (le_S 2 7 (le_S 2 6 (le_S 2 5 (le_S 2 4 (le_S 2 3
              (le_S 2 2 (le_n 2)))))))
           HexLinear_denom_centre eq_refl).
  - intros sf _. apply HexLinear_partial_xi_correct.
  - intros sf _. apply HexLinear_partial_xi_correct.
Defined.
